(** * Networking assistant: the research pipeline and the contact store

    A shallow embedding of the console program [main2.py] and of the parts
    of the GUI program [app2.py] that differ from it, with the properties
    of the research pipeline (URL validation, scraping, news, brief
    generation) and of the JSON contact store.

    Conventions of the embedding:
    - a Python [str] is a list of Unicode code points;
    - a value decoded from JSON is a [json] tree, a [dict] an association
      list in insertion order;
    - a Python exception is a value of [exn]; code that can raise lives in
      the monad [M], which threads the world (disk, event trace, console
      input) and returns [Ok] or [Raise];
    - the network, the HTML parser, the language model and the clock are
      the fields of an environment [Env]; [urlparse] is modelled after
      CPython 3.11 as far as the scheme and the network location go, with
      its address and normalization checks as fields of [Env];
    - the store file is modelled with what reading and writing it can
      raise: a file that cannot be opened, text that is not JSON, bytes
      that are not UTF-8, strings that UTF-8 cannot encode;
    - console output ([print]) is not part of the model. *)

From Stdlib Require Import NArith ZArith List String Ascii Bool Lia.
Import ListNotations.

Open Scope N_scope.

(** ** Python strings *)

Definition char := N.
Definition pystr := list char.

(** An ASCII literal as a Python string. *)
Definition lit (s : string) : pystr :=
  map N_of_ascii (list_ascii_of_string s).

(** [str.isspace] on one code point (the code points Python treats as
    whitespace in [str.strip] and in the regular expression class [\s]). *)
Definition isspace (c : char) : bool :=
  ((9 <=? c) && (c <=? 13)) || ((28 <=? c) && (c <=? 32))
  || (c =? 133) || (c =? 160) || (c =? 5760)
  || ((8192 <=? c) && (c <=? 8202))
  || (c =? 8232) || (c =? 8233) || (c =? 8239) || (c =? 8287)
  || (c =? 12288).

Fixpoint lstrip (s : pystr) : pystr :=
  match s with
  | [] => []
  | c :: r => if isspace c then lstrip r else s
  end.

(** [s.rstrip()]: [lstrip] on the reversed string ([rev_append s []] is
    [rev s], in linear time). *)
Definition rstrip (s : pystr) : pystr :=
  rev_append (lstrip (rev_append s [])) [].

(** [s.strip()] *)
Definition strip (s : pystr) : pystr := rstrip (lstrip s).

(** [s[:n]] *)
Definition slice_to (n : nat) (s : pystr) : pystr := firstn n s.

(** Truth value of a string: [bool(s)]. *)
Definition str_truthy (s : pystr) : bool :=
  match s with [] => false | _ => true end.

(** A blank string: empty, or whitespace only. *)
Definition blank (s : pystr) : bool := forallb isspace s.

Fixpoint str_eqb (s t : pystr) : bool :=
  match s, t with
  | [], [] => true
  | c :: s', d :: t' => (c =? d) && str_eqb s' t'
  | _, _ => false
  end.

(** [sep.join(parts)] *)
Fixpoint join (sep : pystr) (parts : list pystr) : pystr :=
  match parts with
  | [] => []
  | [p] => p
  | p :: rest => p ++ sep ++ join sep rest
  end.

(** [re.sub(r'\s+', ' ', s)]: every maximal run of whitespace becomes one
    space.  [in_run] tells that the previous character was whitespace. *)
Fixpoint collapse_ws (in_run : bool) (s : pystr) : pystr :=
  match s with
  | [] => []
  | c :: r =>
      if isspace c
      then if in_run then collapse_ws true r else 32 :: collapse_ws true r
      else c :: collapse_ws false r
  end.

Definition re_sub_ws (s : pystr) : pystr := collapse_ws false s.

Definition nl : pystr := [10].

(** ** JSON values and Python dictionaries *)

#[warnings="-register-all"]
Inductive json : Type :=
| JNull
| JBool (b : bool)
| JNum (n : Z)
| JStr (s : pystr)
| JArr (l : list json)
| JObj (kv : list (pystr * json)).

(** [bool(v)] *)
Definition truthy (v : json) : bool :=
  match v with
  | JNull => false
  | JBool b => b
  | JNum n => negb (Z.eqb n 0)
  | JStr s => str_truthy s
  | JArr l => match l with [] => false | _ => true end
  | JObj kv => match kv with [] => false | _ => true end
  end.

(** [v == s] for a string [s]: a value of another type is never equal. *)
Definition json_eq_str (v : json) (s : pystr) : bool :=
  match v with
  | JStr t => str_eqb t s
  | _ => false
  end.

(** [d.get(key, default)] on the pairs of a dict. *)
Fixpoint dict_get (kv : list (pystr * json)) (key : pystr) (default : json) : json :=
  match kv with
  | [] => default
  | (k, v) :: rest => if str_eqb k key then v else dict_get rest key default
  end.

(** A code point UTF-8 can encode: not a surrogate ([U+D800]-[U+DFFF]),
    which a Python [str] can hold (from a [\ud800] escape in JSON text)
    but [str.encode('utf-8')] rejects. *)
Definition encodable_char (c : char) : bool :=
  negb ((55296 <=? c) && (c <=? 57343)).

Definition encodable_str (s : pystr) : bool := forallb encodable_char s.

(** [json.dump(v, f, ensure_ascii=False)] to a UTF-8 file succeeds on
    [v]: no string or key of it holds a surrogate. *)
Fixpoint json_encodable (v : json) : bool :=
  match v with
  | JStr s => encodable_str s
  | JArr l => forallb json_encodable l
  | JObj kv =>
      forallb (fun p => match p with
                        | (k, x) => encodable_str k && json_encodable x
                        end) kv
  | _ => true
  end.

(** ** Exceptions *)

Inductive exn : Type :=
| ValueError (msg : pystr)
| RuntimeError (msg : pystr)
| AttributeError (msg : pystr)
| EOFError
| OSError (msg : pystr)                 (* IOError is an alias of OSError *)
| JSONDecodeError (msg : pystr)         (* json.JSONDecodeError *)
| RequestsTimeout (msg : pystr)         (* requests.exceptions.Timeout *)
| RequestsConnectionError (msg : pystr)
| RequestsHTTPError (msg : pystr)       (* raise_for_status *)
| RequestsJSONDecodeError (msg : pystr) (* response.json() on a non-JSON body *)
| ModelError (msg : pystr)              (* whatever the model client raises *)
| TypeError (msg : pystr)
| UnicodeDecodeError (msg : pystr)      (* reading bytes that are not UTF-8 *)
| UnicodeEncodeError (msg : pystr)      (* writing a lone surrogate as UTF-8 *)
| RecursionError (msg : pystr)          (* json.load on too deep a document *)
| RequestsInvalidURL (msg : pystr)      (* requests.exceptions.InvalidURL *)
| LocationParseError (msg : pystr).     (* urllib3's, a ValueError *)

(** [isinstance(e, requests.exceptions.Timeout)] *)
Definition is_Timeout (e : exn) : bool :=
  match e with RequestsTimeout _ => true | _ => false end.

(** [isinstance(e, requests.exceptions.RequestException)] *)
Definition is_RequestException (e : exn) : bool :=
  match e with
  | RequestsTimeout _ | RequestsConnectionError _
  | RequestsHTTPError _ | RequestsJSONDecodeError _
  | RequestsInvalidURL _ => true
  | _ => false
  end.

(** [isinstance(e, (json.JSONDecodeError, IOError))] *)
Definition is_JSONDecodeError_or_IOError (e : exn) : bool :=
  match e with JSONDecodeError _ | OSError _ => true | _ => false end.

Definition is_IOError (e : exn) : bool :=
  match e with OSError _ => true | _ => false end.

(** [str(e)] *)
Definition exn_str (e : exn) : pystr :=
  match e with
  | ValueError m | RuntimeError m | AttributeError m | OSError m
  | JSONDecodeError m | RequestsTimeout m | RequestsConnectionError m
  | RequestsHTTPError m | RequestsJSONDecodeError m | ModelError m
  | TypeError m | UnicodeDecodeError m | UnicodeEncodeError m | RecursionError m
  | RequestsInvalidURL m | LocationParseError m => m
  | EOFError => []
  end.

Inductive result (A : Type) : Type :=
| Ok (a : A)
| Raise (e : exn).
Arguments Ok {A} a.
Arguments Raise {A} e.

(** ** The exception monad over a state *)

Definition M (S A : Type) : Type := S -> result A * S.

Definition ret {S A} (a : A) : M S A := fun s => (Ok a, s).

Definition raise {S A} (e : exn) : M S A := fun s => (Raise e, s).

Definition bind {S A B} (m : M S A) (k : A -> M S B) : M S B :=
  fun s =>
    match m s with
    | (Ok a, s') => k a s'
    | (Raise e, s') => (Raise e, s')
    end.

(** [try: m  except <classes>: h].  The handler answers [None] for an
    exception no [except] clause matches, which is then re-raised.  What
    the body did to the state before raising stays done. *)
Definition try_except {S A} (m : M S A) (h : exn -> option (M S A)) : M S A :=
  fun s =>
    match m s with
    | (Ok a, s') => (Ok a, s')
    | (Raise e, s') =>
        match h e with
        | Some k => k s'
        | None => (Raise e, s')
        end
    end.

(** A computation that can raise but has no other effect. *)
Definition call {S A} (r : result A) : M S A := fun s => (r, s).

Declare Scope py_scope.
Delimit Scope py_scope with py.
Notation "x <- m ;; k" := (bind m (fun x => k))
  (at level 100, m at next level, right associativity) : py_scope.
Notation "m ;;; k" := (bind m (fun _ => k))
  (at level 100, right associativity) : py_scope.
Open Scope py_scope.

(** ** The world outside the program *)

(** [urlparse(...)]: the two components the program reads. *)
Record ParseResult : Type := { scheme : pystr; netloc : pystr }.

Record Request : Type := {
  req_url : pystr;
  req_params : list (pystr * json);
  req_headers : list (pystr * pystr);
  req_timeout : N
}.

(** [body_json] is what [response.json()] returns, [None] when the body is
    not JSON. *)
Record Response : Type := {
  status_code : N;
  text : pystr;
  body_json : option json
}.

(** What [requests.get] does.  It can refuse the request before anything
    is sent, raising [e]: [InvalidURL] for a URL without a host, or an
    exception that is no [RequestException], as urllib3's
    [LocationParseError], which the library lets through.  Otherwise the
    request goes out, and the call raises [Timeout], raises another
    [RequestException], or returns a response (of any status). *)
Inductive Transport : Type :=
| Rejected (e : exn)
| Timed_out (msg : pystr)
| Failed (msg : pystr)
| Responded (r : Response).

(** A parsed HTML document is a forest of nodes. *)
#[warnings="-register-all"]
Inductive node : Type :=
| Text (s : pystr)
| Elem (tag : pystr) (children : list node).

Record Env : Type := {
  (* urllib's check of a network location that holds both brackets
     ([_check_bracketed_netloc]: an IPv6 or IPvFuture address) passes *)
  bracketed_netloc_valid : pystr -> bool;
  (* a network location that is not ASCII gives one of [/?#@:] under NFKC
     normalization (the test of [_checknetloc]) *)
  nfkc_has_delimiter : pystr -> bool;
  http_get : Request -> Transport;
  html_parser : pystr -> list node;          (* BeautifulSoup(text, 'html.parser') *)
  generate_content : pystr -> result pystr;  (* model.generate_content(prompt).text *)
  now_isoformat : pystr;                     (* datetime.now().isoformat() *)
  format_value : json -> pystr;              (* str(v) of a value that is not a str *)
  GEMINI_API_KEY : option pystr;
  NEWS_API_KEY : option pystr
}.

(** The store file [MEMORY_FILE].  [Garbage] is text [json.load] rejects
    with [JSONDecodeError]; [Raising e] is content on which reading raises
    another exception [e] ([UnicodeDecodeError] for bytes that are not
    UTF-8, [RecursionError] for a document nested too deep); a JSON
    document is kept as the value it decodes to. *)
Inductive FileData : Type :=
| Garbage
| Raising (e : exn)
| Json (j : json).

Record Disk : Type := {
  file : option FileData;   (* [None]: the file does not exist *)
  readable : bool;          (* [open(MEMORY_FILE, "r")] succeeds *)
  writable : bool           (* [open(MEMORY_FILE, "w")] succeeds, and the
                               text written reaches the file *)
}.

Inductive Event : Type :=
| EvHttpGet (r : Request)       (* a request was sent *)
| EvGenerate (prompt : pystr)   (* the language model was invoked *)
| EvSave (data : json).         (* the store file was opened for writing [data] *)

Record World : Type := {
  disk : Disk;
  stdin : list pystr;     (* the lines the user will type *)
  trace : list Event      (* oldest first *)
}.

Definition log (ev : Event) : M World unit :=
  fun w => (Ok tt, {| disk := disk w; stdin := stdin w; trace := trace w ++ [ev] |}).

Definition set_disk (d : Disk) : M World unit :=
  fun w => (Ok tt, {| disk := d; stdin := stdin w; trace := trace w |}).

Definition get_disk : M World Disk := fun w => (Ok (disk w), w).

(** ** Constants of both programs *)

Definition MAX_CONTENT_LENGTH : nat := 5000.
Definition REQUEST_TIMEOUT : N := 10.

(** ** Library calls *)

Section Library.
Variable E : Env.

(** *** [urllib.parse.urlparse] (CPython 3.11): scheme and network location *)

Definition isascii (c : char) : bool := c <? 128.

Definition is_ascii_alpha (c : char) : bool :=
  ((65 <=? c) && (c <=? 90)) || ((97 <=? c) && (c <=? 122)).

(** [c in scheme_chars]: a letter, a digit, [+], [-] or [.] *)
Definition scheme_char (c : char) : bool :=
  is_ascii_alpha c || ((48 <=? c) && (c <=? 57))
  || (c =? 43) || (c =? 45) || (c =? 46).

(** [str.lower] on a character of [scheme_chars] *)
Definition ascii_lower (c : char) : char :=
  if (65 <=? c) && (c <=? 90) then c + 32 else c.

(** [url.lstrip(_WHATWG_C0_CONTROL_OR_SPACE)]: the characters up to
    [U+0020]. *)
Fixpoint lstrip_c0 (s : pystr) : pystr :=
  match s with
  | [] => []
  | c :: r => if c <=? 32 then lstrip_c0 r else s
  end.

(** Tab, carriage return and line feed are removed wherever they are
    ([_UNSAFE_URL_BYTES_TO_REMOVE]). *)
Definition remove_unsafe (s : pystr) : pystr :=
  filter (fun c => negb ((c =? 9) || (c =? 13) || (c =? 10))) s.

(** [i = url.find(':')]: [url[:i]] and [url[i+1:]], when there is a
    colon. *)
Fixpoint before_colon (s : pystr) : option (pystr * pystr) :=
  match s with
  | [] => None
  | c :: r =>
      if c =? 58 then Some ([], r)
      else match before_colon r with
           | Some (a, b) => Some (c :: a, b)
           | None => None
           end
  end.

(** One of [/], [?] and [#], which end the network location. *)
Definition delimiter (c : char) : bool :=
  (c =? 47) || (c =? 63) || (c =? 35).

(** [_splitnetloc(url, 2)[0]], of the text after the two slashes. *)
Fixpoint authority (s : pystr) : pystr :=
  match s with
  | [] => []
  | c :: r => if delimiter c then [] else c :: authority r
  end.

(** The checks of the network location in [urlsplit]: both brackets or
    none, [_check_bracketed_netloc], [_checknetloc]. *)
Definition check_netloc (loc : pystr) : result unit :=
  let opening := existsb (N.eqb 91) loc in
  let closing := existsb (N.eqb 93) loc in
  if xorb opening closing then Raise (ValueError (lit "Invalid IPv6 URL"))
  else if opening && closing && negb (bracketed_netloc_valid E loc)
  then Raise (ValueError (lit "Invalid IPv6 URL"))
  else if negb (forallb isascii loc) && nfkc_has_delimiter E loc
  then Raise (ValueError
                (lit "netloc contains invalid characters under NFKC normalization"))
  else Ok tt.

(** The scheme and what follows it: the scheme is the text before the
    first colon, in lower case, when that text starts with a letter and
    holds only characters of [scheme_chars]; it is empty otherwise. *)
Definition split_scheme (url : pystr) : pystr * pystr :=
  match before_colon url with
  | Some (c :: pre, post) =>
      if is_ascii_alpha c && forallb scheme_char (c :: pre)
      then (map ascii_lower (c :: pre), post)
      else ([], url)
  | _ => ([], url)
  end.

(** [url[:2] == '//']: what follows the two slashes. *)
Definition after_slashes (url : pystr) : option pystr :=
  match url with
  | c1 :: c2 :: rest => if (c1 =? 47) && (c2 =? 47) then Some rest else None
  | _ => None
  end.

(** [urlparse(url)]: the network location follows [//], up to the next
    delimiter. *)
Definition urlparse (url : pystr) : result ParseResult :=
  let url := remove_unsafe (lstrip_c0 url) in
  let '(sch, url) := split_scheme url in
  match after_slashes url with
  | Some rest =>
      match check_netloc (authority rest) with
      | Ok _ => Ok {| scheme := sch; netloc := authority rest |}
      | Raise e => Raise e
      end
  | None => Ok {| scheme := sch; netloc := [] |}
  end.

(** [s.rpartition(d)[2]]: what follows the last [d], all of [s] when
    there is none. *)
Fixpoint after_last (d : char) (s : pystr) : pystr :=
  match s with
  | [] => []
  | c :: r =>
      if existsb (N.eqb d) r then after_last d r
      else if c =? d then r else s
  end.

(** [s.partition(d)[0]] *)
Fixpoint before_first (d : char) (s : pystr) : pystr :=
  match s with
  | [] => []
  | c :: r => if c =? d then [] else c :: before_first d r
  end.

(** [s.partition(d)[2]], when [d] occurs *)
Fixpoint after_first (d : char) (s : pystr) : option pystr :=
  match s with
  | [] => None
  | c :: r => if c =? d then Some r else after_first d r
  end.

(** [result._hostinfo[0]]: the host of the network location, without
    user information and port.  [result.hostname] is [None] when it is
    empty. *)
Definition hostinfo (r : ParseResult) : pystr :=
  let h := after_last 64 (netloc r) in
  match after_first 91 h with
  | Some bracketed => before_first 93 bracketed
  | None => before_first 58 h
  end.

(** *** [requests], [json], files *)

(** [requests.get(url, params=..., headers=..., timeout=...)] *)
Definition requests_get (r : Request) : M World Response :=
  match http_get E r with
  | Rejected e => raise e
  | Timed_out m => log (EvHttpGet r) ;;; raise (RequestsTimeout m)
  | Failed m => log (EvHttpGet r) ;;; raise (RequestsConnectionError m)
  | Responded resp => log (EvHttpGet r) ;;; ret resp
  end.

(** [response.raise_for_status()] *)
Definition raise_for_status {S} (resp : Response) : M S unit :=
  if (400 <=? status_code resp) && (status_code resp <? 600)
  then raise (RequestsHTTPError (lit "HTTP error"))
  else ret tt.

(** [response.json()] *)
Definition response_json {S} (resp : Response) : M S json :=
  match body_json resp with
  | Some j => ret j
  | None => raise (RequestsJSONDecodeError (lit "Expecting value"))
  end.

(** [v.get(key, default)]: only a dict has the method. *)
Definition py_get {S} (v : json) (key : pystr) (default : json) : M S json :=
  match v with
  | JObj kv => ret (dict_get kv key default)
  | _ => raise (AttributeError (lit "object has no attribute 'get'"))
  end.

(** [f"{v}"] *)
Definition fmt (v : json) : pystr :=
  match v with
  | JStr s => s
  | _ => format_value E v
  end.

(** [model.generate_content(prompt).text] *)
Definition model_generate (prompt : pystr) : M World pystr :=
  log (EvGenerate prompt) ;;; call (generate_content E prompt).

(** [os.path.exists(MEMORY_FILE)] *)
Definition os_path_exists : M World bool :=
  d <- get_disk ;;
  ret (match file d with Some _ => true | None => false end).

(** [with open(MEMORY_FILE, "r") as f: json.load(f)] *)
Definition open_and_load : M World json :=
  d <- get_disk ;;
  if negb (readable d) then raise (OSError (lit "Permission denied"))
  else match file d with
       | None => raise (OSError (lit "No such file or directory"))
       | Some Garbage => raise (JSONDecodeError (lit "Expecting value"))
       | Some (Raising e) => raise e
       | Some (Json j) => ret j
       end.

(** [with open(MEMORY_FILE, "w") as f: json.dump(data, f, ...)].
    Opening truncates the file; when [json.dump] meets a surrogate it
    raises [UnicodeEncodeError], and the file is left with the part
    written so far, which is no JSON document. *)
Definition open_and_dump (data : json) : M World unit :=
  log (EvSave data) ;;;
  d <- get_disk ;;
  if negb (writable d) then raise (OSError (lit "Permission denied"))
  else if json_encodable data
  then set_disk {| file := Some (Json data);
                   readable := readable d; writable := writable d |}
  else
    set_disk {| file := Some Garbage;
                readable := readable d; writable := writable d |} ;;;
    raise (UnicodeEncodeError (lit "surrogates not allowed")).

(** ** HTML trees (the BeautifulSoup calls of [scrape_website]) *)

Definition tag_in (t : pystr) (tags : list pystr) : bool :=
  existsb (str_eqb t) tags.

(** [for s in soup(tags): s.decompose()] on one node. *)
Fixpoint decompose (tags : list pystr) (n : node) : list node :=
  match n with
  | Text s => [Text s]
  | Elem t ch =>
      if tag_in t tags then []
      else [Elem t (flat_map (decompose tags) ch)]
  end.

(** [find_all(tags)]: the matching elements below and including [n], in
    document order. *)
Fixpoint find_all (tags : list pystr) (n : node) : list node :=
  match n with
  | Text _ => []
  | Elem t ch =>
      (if tag_in t tags then [n] else []) ++ flat_map (find_all tags) ch
  end.

(** [n.get_text()] *)
Fixpoint get_text (n : node) : pystr :=
  match n with
  | Text s => s
  | Elem _ ch => flat_map get_text ch
  end.

End Library.

Arguments urlparse : simpl never.

(** ** Code the two programs share word for word *)

(** What the user typed for one contact ([contact_info]). *)
Record ContactInfo : Type := {
  ci_name : pystr;
  ci_role : pystr;
  ci_linkedin : pystr;
  ci_company : pystr;
  ci_website : pystr;
  ci_industry : pystr
}.

Section Shared.
Variable E : Env.

(** [all([result.scheme in ('http', 'https'), result.netloc])] *)
Definition scheme_and_netloc_ok (r : ParseResult) : bool :=
  (str_eqb (scheme r) (lit "http") || str_eqb (scheme r) (lit "https"))
  && str_truthy (netloc r).

(** [is_valid_url] (main2.py 19-25, app2.py 559-565). *)
Definition is_valid_url {S} (url : pystr) : M S bool :=
  try_except
    (result <- call (urlparse E (strip url)) ;;
     ret (scheme_and_netloc_ok result))
    (fun _ => Some (ret false)).

Definition user_agent : pystr :=
  lit "Mozilla/5.0 (Windows NT 10.0; Win64; x64) AppleWebKit/537.36 (KHTML, like Gecko) Chrome/91.0.4472.124 Safari/537.36".

(** The stripped, non-empty texts of the elements [els]. *)
Definition stripped_texts (els : list node) : list pystr :=
  map (fun h => strip (get_text h))
      (filter (fun h => str_truthy (strip (get_text h))) els).

(** The [main]/[article]/[section] blocks of more than 50 characters. *)
Definition substantial_texts (els : list node) : list pystr :=
  flat_map (fun element =>
              let text := strip (get_text element) in
              if str_truthy text && (50 <? List.length text)%nat
              then [text] else [])
           els.

(** The text [scrape_website] extracts from a fetched page. *)
Definition extract_content (html : pystr) : pystr :=
  let soup := html_parser E html in
  let soup := flat_map (decompose [lit "script"; lit "style"]) soup in
  let headings := flat_map (find_all [lit "h1"; lit "h2"; lit "h3"]) soup in
  let paragraphs := flat_map (find_all [lit "p"]) soup in
  let main_content :=
    flat_map (find_all [lit "main"; lit "article"; lit "section"]) soup in
  let content_elements :=
    stripped_texts headings ++ stripped_texts paragraphs
    ++ substantial_texts main_content in
  let content := join (lit " ") content_elements in
  let content := re_sub_ws content in
  slice_to MAX_CONTENT_LENGTH (strip content).

(** [scrape_website] (main2.py 71-119, app2.py 567-613). *)
Definition scrape_website (url : pystr) : M World pystr :=
  valid <- is_valid_url url ;;
  if negb valid then raise (ValueError (lit "Invalid URL provided"))
  else
    response <-
      try_except
        (response <- requests_get E
           {| req_url := url; req_params := [];
              req_headers := [(lit "User-Agent", user_agent)];
              req_timeout := REQUEST_TIMEOUT |} ;;
         raise_for_status response ;;;
         ret response)
        (fun e =>
           if is_Timeout e
           then Some (raise (RuntimeError (lit "Website request timed out")))
           else if is_RequestException e
           then Some (raise (RuntimeError
                               (lit "Error fetching website: " ++ exn_str e)))
           else None) ;;
    ret (extract_content (text response)).

(** The f-string prompt of [generate_summary]; [indent] is the
    indentation of the function body the literal sits in. *)
Definition build_prompt (indent : pystr) (contact_info : ContactInfo)
           (content : pystr) : pystr :=
  nl ++ indent
  ++ lit "You are a networking assistant. Analyze the following information about "
  ++ ci_name contact_info ++ lit " from " ++ ci_company contact_info
  ++ lit " and create a concise networking brief." ++ nl
  ++ nl
  ++ indent ++ lit "Focus on:" ++ nl
  ++ indent ++ lit "1. Key information about the person and their role" ++ nl
  ++ indent ++ lit "2. Company overview and recent developments" ++ nl
  ++ indent ++ lit "3. Industry trends and opportunities" ++ nl
  ++ indent ++ lit "4. Potential conversation starters" ++ nl
  ++ indent ++ lit "5. Ways to add value to this connection" ++ nl
  ++ nl
  ++ indent ++ lit "Content to analyze:" ++ nl
  ++ indent ++ content ++ nl
  ++ nl
  ++ indent
  ++ lit "Please provide a structured summary that will help prepare for a networking conversation."
  ++ nl ++ indent.

(** The request both [fetch_news] send. *)
Definition news_request (api_key : option pystr) (q : pystr)
           (num_articles : Z) : Request :=
  {| req_url := lit "https://newsapi.org/v2/everything";
     req_params :=
       [(lit "q", JStr q);
        (lit "apiKey", match api_key with Some k => JStr k | None => JNull end);
        (lit "pageSize", JNum num_articles);
        (lit "language", JStr (lit "en"));
        (lit "sortBy", JStr (lit "publishedAt"))];
     req_headers := [];
     req_timeout := REQUEST_TIMEOUT |}.

(** The body of the [try] of both [fetch_news]. *)
Definition request_articles (req : Request) : M World (list json) :=
  response <- requests_get E req ;;
  raise_for_status response ;;;
  data <- response_json response ;;
  status <- py_get data (lit "status") JNull ;;
  if negb (json_eq_str status (lit "ok")) then ret []
  else
    articles <- py_get data (lit "articles") (JArr []) ;;
    match articles with
    | JArr l => ret l
    | _ => ret []
    end.

(** The record both programs store. *)
Definition make_entry (name role linkedin company website industry : pystr)
           (summary : pystr) (news_links : list json) : json :=
  JObj [(lit "name", JStr name);
        (lit "role", JStr role);
        (lit "linkedin", JStr linkedin);
        (lit "company", JStr company);
        (lit "website", JStr website);
        (lit "industry", JStr industry);
        (lit "summary", JStr summary);
        (lit "news_links", JArr news_links);
        (lit "created_date", JStr (now_isoformat E))].

(** The loop over the articles in both pipelines.  [news_content] and
    [news_links] are the two lists the loop appends to; [news_links] is
    returned also when [article.get] raises, as the caller's list keeps
    what was appended before. *)
Fixpoint collect_news (articles : list json)
         (news_content : list pystr) (news_links : list json)
  : result (list pystr) * list json :=
  match articles with
  | [] => (Ok news_content, news_links)
  | article :: rest =>
      match article with
      | JObj kv =>
          let title := dict_get kv (lit "title") (JStr []) in
          let description := dict_get kv (lit "description") (JStr []) in
          let url := dict_get kv (lit "url") (JStr []) in
          if truthy title || truthy description
          then collect_news rest
                 (news_content
                  ++ [[8226; 32] ++ fmt E title ++ lit ": " ++ fmt E description])
                 (if truthy url then news_links ++ [url] else news_links)
          else collect_news rest news_content news_links
      | _ => (Raise (AttributeError (lit "object has no attribute 'get'")),
              news_links)
      end
  end.

End Shared.

(** ** The console program, main2.py *)

Module Main2.
Section Program.
Variable E : Env.

(** [sanitize_input] (27-29) *)
Definition sanitize_input (text : pystr) : pystr :=
  if str_truthy text then slice_to 500 (strip text) else [].

(** [fetch_news] (31-69) *)
Definition fetch_news (api_key : option pystr) (query : pystr)
           (num_articles : Z) : M World (list json) :=
  if negb (str_truthy (strip query)) then ret []
  else
    try_except
      (request_articles E
         (news_request api_key (sanitize_input query) num_articles))
      (fun e =>
         if is_Timeout e then Some (ret [])
         else if is_RequestException e then Some (ret [])
         else None).

(** [load_memory] (121-132) *)
Definition load_memory : M World (list json) :=
  there <- os_path_exists ;;
  if negb there then ret []
  else
    try_except
      (memory <- open_and_load ;;
       ret (match memory with JArr l => l | _ => [] end))
      (fun e =>
         if is_JSONDecodeError_or_IOError e then Some (ret []) else None).

(** [save_memory] (134-142) *)
Definition save_memory (memory_data : list json) : M World bool :=
  try_except
    (open_and_dump (JArr memory_data) ;;; ret true)
    (fun e => if is_IOError e then Some (ret false) else None).

(** [new_entry] of [save_to_memory] (224-234); [news_links or []]. *)
Definition new_entry (name role linkedin company website industry : pystr)
           (summary : pystr) (news_links : option (list json)) : json :=
  make_entry E
    (sanitize_input name) (sanitize_input role) (sanitize_input linkedin)
    (sanitize_input company) (sanitize_input website)
    (sanitize_input industry)
    summary
    (match news_links with Some l => l | None => [] end).

(** [save_to_memory] (217-244) *)
Definition save_to_memory (name role linkedin company website industry : pystr)
           (summary : pystr) (news_links : option (list json))
  : M World bool :=
  if negb (str_truthy (strip name) && str_truthy (strip company))
  then ret false
  else
    memory_data <- load_memory ;;
    let memory_data :=
      memory_data
      ++ [new_entry name role linkedin company website industry
                    summary news_links] in
    saved <- save_memory memory_data ;;
    if saved then ret true else ret false.

(** [input(...).strip()] in a [while True] loop that ends when [accept]
    holds of the stripped line.  [input] raises [EOFError] when the
    input has no line left. *)
Fixpoint input_loop (accept : pystr -> result bool) (lines : list pystr)
  : result pystr * list pystr :=
  match lines with
  | [] => (Raise EOFError, [])
  | l :: rest =>
      let v := strip l in
      match accept v with
      | Ok true => (Ok v, rest)
      | Ok false => input_loop accept rest
      | Raise e => (Raise e, rest)
      end
  end.

Definition input_until (accept : pystr -> result bool) : M World pystr :=
  fun w =>
    let (r, rest) := input_loop accept (stdin w) in
    (r, {| disk := disk w; stdin := rest; trace := trace w |}).

(** [not s or is_valid_url(s)] *)
Definition blank_or_valid_url (s : pystr) : result bool :=
  if negb (str_truthy s) then Ok true
  else fst (is_valid_url E s tt).

(** [get_user_input] (246-289) *)
Definition get_user_input : M World ContactInfo :=
  name <- input_until (fun v => Ok (str_truthy v)) ;;
  company <- input_until (fun v => Ok (str_truthy v)) ;;
  role <- input_until (fun _ => Ok true) ;;
  linkedin <- input_until blank_or_valid_url ;;
  website <- input_until blank_or_valid_url ;;
  industry <- input_until (fun _ => Ok true) ;;
  ret {| ci_name := name; ci_role := role; ci_linkedin := linkedin;
         ci_company := company; ci_website := website;
         ci_industry := industry |}.

Definition no_content_sentinel : pystr :=
  lit "No content available for summary.".

Definition fallback_summary (contact_info : ContactInfo) : pystr :=
  lit "Summary generation failed. Manual notes: Company website and news content were collected for "
  ++ ci_name contact_info ++ lit " at " ++ ci_company contact_info ++ lit ".".

(** [generate_summary] (291-318) *)
Definition generate_summary (content : pystr) (contact_info : ContactInfo)
  : M World pystr :=
  if negb (str_truthy (strip content)) then ret no_content_sentinel
  else
    let prompt := build_prompt (lit "    ") contact_info content in
    try_except
      (model_generate E prompt)
      (fun _ => Some (ret (fallback_summary contact_info))).

(** The website step of [add_new_contact] (331-338): the new value of
    [all_content]. *)
Definition scrape_step (contact_info : ContactInfo) : M World (list pystr) :=
  if str_truthy (ci_website contact_info) then
    try_except
      (website_content <- scrape_website E (ci_website contact_info) ;;
       if str_truthy website_content
       then ret [lit "Company Website Content:" ++ nl ++ website_content]
       else ret [])
      (fun _ => Some (ret []))
  else ret [].

(** The news step of [add_new_contact] (340-359): the new values of
    [all_content] and [news_links]. *)
Definition news_step (contact_info : ContactInfo) (all_content : list pystr)
  : M World (list pystr * list json) :=
  if str_truthy (ci_industry contact_info) then
    try_except
      (news_articles <-
         fetch_news (NEWS_API_KEY E) (ci_industry contact_info) 5 ;;
       match news_articles with
       | [] => ret (all_content, [])
       | _ =>
           match collect_news E news_articles [] [] with
           | (Ok news_content, news_links) =>
               match news_content with
               | [] => ret (all_content, news_links)
               | _ => ret (all_content
                           ++ [lit "Recent Industry News:" ++ nl
                               ++ join nl news_content],
                           news_links)
               end
           | (Raise _, news_links) =>
               (* [except Exception] of line 358, around the loop too *)
               ret (all_content, news_links)
           end
       end)
      (fun _ => Some (ret (all_content, [])))
  else ret (all_content, []).

(** [add_new_contact] after [get_user_input] (327-386). *)
Definition research_and_save (contact_info : ContactInfo) : M World unit :=
  all_content <- scrape_step contact_info ;;
  r <- news_step contact_info all_content ;;
  let '(all_content, news_links) := r in
  let combined_content :=
    match all_content with
    | [] => []
    | _ => join (nl ++ nl) all_content
    end in
  summary <- generate_summary combined_content contact_info ;;
  save_to_memory
    (ci_name contact_info) (ci_role contact_info)
    (ci_linkedin contact_info) (ci_company contact_info)
    (ci_website contact_info) (ci_industry contact_info)
    summary (Some news_links) ;;;
  ret tt.

(** [add_new_contact] (320-386) *)
Definition add_new_contact : M World unit :=
  contact_info <- get_user_input ;;
  research_and_save contact_info.

End Program.
End Main2.

(** ** The GUI program, app2.py: what differs from main2.py *)

Module App2.

(** A message box the program opened. *)
Inductive Dialog : Type :=
| ShowWarning (msg : pystr)
| AskYesNo (msg : pystr)
| ShowError (msg : pystr).

(** The object [self]: its contact list, and the world around it.  The
    store document is a JSON array, as both programs write it. *)
Record Gui : Type := {
  current_contacts : list json;
  dialogs : list Dialog;
  world : World
}.

Definition in_world {A} (m : M World A) : M Gui A :=
  fun g =>
    let (r, w) := m (world g) in
    (r, {| current_contacts := current_contacts g;
           dialogs := dialogs g; world := w |}).

Definition get_contacts : M Gui (list json) :=
  fun g => (Ok (current_contacts g), g).

Definition set_contacts (l : list json) : M Gui unit :=
  fun g => (Ok tt, {| current_contacts := l;
                      dialogs := dialogs g; world := world g |}).

Definition dialog (d : Dialog) : M Gui unit :=
  fun g => (Ok tt, {| current_contacts := current_contacts g;
                      dialogs := dialogs g ++ [d]; world := world g |}).

Section Program.
Variable E : Env.

(** [int(text)], Python's conversion of a string to an integer; [None]
    when it raises [ValueError]. *)
Variable py_int : pystr -> option Z.

(** [not api_key] *)
Definition key_missing (api_key : option pystr) : bool :=
  match api_key with
  | None => true
  | Some k => negb (str_truthy k)
  end.

(** [fetch_news] (615-641) *)
Definition fetch_news (api_key : option pystr) (query : pystr)
           (num_articles : Z) : M World (list json) :=
  if negb (str_truthy (strip query)) || key_missing api_key then ret []
  else
    try_except
      (request_articles E
         (news_request api_key (slice_to 500 (strip query)) num_articles))
      (fun _ => Some (ret [])).

Definition unavailable_sentinel : pystr :=
  lit "No content available for summary or API key missing.".

Definition fallback_summary (e : exn) (contact_info : ContactInfo) : pystr :=
  lit "Summary generation failed: " ++ exn_str e
  ++ lit ". Manual notes: Company website and news content were collected for "
  ++ ci_name contact_info ++ lit " at " ++ ci_company contact_info ++ lit ".".

(** [generate_summary] (643-668) *)
Definition generate_summary (content : pystr) (contact_info : ContactInfo)
  : M World pystr :=
  if negb (str_truthy (strip content)) || key_missing (GEMINI_API_KEY E)
  then ret unavailable_sentinel
  else
    let prompt := build_prompt (lit "        ") contact_info content in
    try_except
      (model_generate E prompt)
      (fun e => Some (ret (fallback_summary e contact_info))).

(** [save_contact_to_memory] (537-556) *)
Definition save_contact_to_memory (contact_info : ContactInfo)
           (summary : pystr) (news_links : list json) : M Gui unit :=
  let new_entry :=
    make_entry E
      (ci_name contact_info) (ci_role contact_info)
      (ci_linkedin contact_info) (ci_company contact_info)
      (ci_website contact_info) (ci_industry contact_info)
      summary news_links in
  try_except
    (contacts <- get_contacts ;;
     set_contacts (contacts ++ [new_entry]) ;;;
     in_world (open_and_dump (JArr (contacts ++ [new_entry]))))
    (fun _ =>
       (* [root.after(0, lambda: messagebox.showerror(..., str(e)))]: the
          callback runs after the [except] block has unbound [e], so it
          fails with [NameError] in the event loop and opens no box *)
       Some (ret tt)).

(** A value of a row as [Treeview.item(...)['values']] gives it: ttk's
    [_convert_stringval] turns the text of the cell into an [int] when
    [int(text)] succeeds. *)
Inductive tkvalue : Type :=
| TkStr (s : pystr)
| TkInt (n : Z).

Definition convert_stringval (text : pystr) : tkvalue :=
  match py_int text with
  | Some n => TkInt n
  | None => TkStr text
  end.

(** [f"{value}"] *)
Definition tk_str (value : tkvalue) : pystr :=
  match value with
  | TkStr s => s
  | TkInt n => format_value E (JNum n)
  end.

(** [v == value], for a stored [v]; [True == 1] and [False == 0]. *)
Definition json_eq_value (v : json) (value : tkvalue) : bool :=
  match value with
  | TkStr s => json_eq_str v s
  | TkInt n =>
      match v with
      | JNum m => (m =? n)%Z
      | JBool b => ((if b then 1 else 0) =? n)%Z
      | _ => false
      end
  end.

(** [contact.get('name') == contact_name and
     contact.get('company') == company_name] *)
Definition contact_matches (contact : json)
           (contact_name company_name : tkvalue) : result bool :=
  match contact with
  | JObj kv =>
      Ok (json_eq_value (dict_get kv (lit "name") JNull) contact_name
          && json_eq_value (dict_get kv (lit "company") JNull) company_name)
  | _ => Raise (AttributeError (lit "object has no attribute 'get'"))
  end.

(** The [for i, contact in enumerate(...)] loop of
    [delete_selected_contact] up to its [break]: the index to pop. *)
Fixpoint find_contact (contacts : list json)
         (contact_name company_name : tkvalue) (i : nat)
  : result (option nat) :=
  match contacts with
  | [] => Ok None
  | contact :: rest =>
      match contact_matches contact contact_name company_name with
      | Ok true => Ok (Some i)
      | Ok false => find_contact rest contact_name company_name (S i)
      | Raise e => Raise e
      end
  end.

(** The list after [l.pop(i)] *)
Definition pop (i : nat) (l : list json) : list json :=
  firstn i l ++ skipn (S i) l.

(** The number of keys of a dict. *)
Definition dict_len (kv : list (pystr * json)) : nat :=
  List.length (nodup (list_eq_dec N.eq_dec) (map fst kv)).

(** The date column of [populate_contacts_tree] (298-307), as far as it
    can raise: [contact.get] needs a dict; a [created_date] that is not a
    string fails in the [try], and then [len(date_str)] and the slice
    [date_str[:10]] run in the handler. *)
Definition formatted_date (contact : json) : result unit :=
  match contact with
  | JObj kv =>
      let date_str := dict_get kv (lit "created_date") (JStr []) in
      if truthy date_str then
        match date_str with
        | JStr _ | JArr _ => Ok tt
        | JObj d =>
            if (10 <=? dict_len d)%nat
            then Raise (TypeError (lit "unhashable type: 'slice'"))
            else Ok tt
        | JNum _ => Raise (TypeError (lit "object of type 'int' has no len()"))
        | _ => Raise (TypeError (lit "object of type 'bool' has no len()"))
        end
      else Ok tt
  | _ => Raise (AttributeError (lit "object has no attribute 'get'"))
  end.

(** [populate_contacts_tree()] (289-317): the rows are rebuilt from the
    contact list; only what it can raise is kept. *)
Fixpoint populate_contacts_tree (contacts : list json) : result unit :=
  match contacts with
  | [] => Ok tt
  | contact :: rest =>
      match formatted_date contact with
      | Ok _ => populate_contacts_tree rest
      | Raise e => Raise e
      end
  end.

(** [delete_selected_contact] (384-415).  [selection] is the text of the
    name and company cells of the selected row, if a row is selected;
    [confirmed] is the answer to the confirmation box.  The value
    returned is Python's [None], here [JNull]. *)
Definition delete_selected_contact (selection : option (pystr * pystr))
           (confirmed : bool) : M Gui json :=
  match selection with
  | None =>
      dialog (ShowWarning (lit "Please select a contact to delete.")) ;;;
      ret JNull
  | Some (name_cell, company_cell) =>
      let contact_name := convert_stringval name_cell in
      let company_name := convert_stringval company_cell in
      dialog (AskYesNo (lit "Are you sure you want to delete "
                        ++ tk_str contact_name ++ lit " from "
                        ++ tk_str company_name ++ lit "?")) ;;;
      if confirmed then
        contacts <- get_contacts ;;
        found <- call (find_contact contacts contact_name company_name 0) ;;
        match found with
        | Some i => set_contacts (pop i contacts)
        | None => ret tt
        end ;;;
        contacts <- get_contacts ;;
        try_except
          (in_world (open_and_dump (JArr contacts)) ;;;
           call (populate_contacts_tree contacts))
          (fun e => Some (dialog (ShowError (lit "Failed to delete contact: "
                                             ++ exn_str e)))) ;;;
        ret JNull
      else ret JNull
  end.

End Program.
End App2.

(** ** Predicates the statements use *)

(** The three forms the summary of the console pipeline can take. *)
Definition summary_shape (E : Env) (contact_info : ContactInfo)
           (summary : pystr) : Prop :=
  (exists prompt, generate_content E prompt = Ok summary)
  \/ summary = Main2.no_content_sentinel
  \/ summary = Main2.fallback_summary contact_info.

(** [contact] is a record whose name and company are exactly these. *)
Definition is_contact (contact_name company_name : pystr) (contact : json)
  : Prop :=
  exists kv, contact = JObj kv
             /\ dict_get kv (lit "name") JNull = JStr contact_name
             /\ dict_get kv (lit "company") JNull = JStr company_name.

Definition is_dict (v : json) : Prop := exists kv, v = JObj kv.

(** The contact list the store file holds, as it can be read: the empty
    list unless the file is readable and holds a JSON array. *)
Definition stored_contacts (w : World) : list json :=
  match file (disk w) with
  | Some (Json (JArr l)) => if readable (disk w) then l else []
  | _ => []
  end.

(** The exception that reading the store file raises and [load_memory]
    does not catch, if there is one. *)
Definition load_failure (w : World) : option exn :=
  match file (disk w) with
  | Some (Raising e) =>
      if readable (disk w) && negb (is_JSONDecodeError_or_IOError e)
      then Some e else None
  | _ => None
  end.

(** Round trip of the store: [save_to_memory] of these fields, then
    [load_memory], gives a list whose last element is the record. *)
Definition append_then_load_ends_with_record (E : Env) (w : World)
           (name role linkedin company website industry summary : pystr)
           (news_links : option (list json)) : Prop :=
  exists saved w1 memory w2,
    Main2.save_to_memory E name role linkedin company website industry
                         summary news_links w = (Ok saved, w1)
    /\ Main2.load_memory w1 = (Ok memory, w2)
    /\ last memory JNull
       = Main2.new_entry E name role linkedin company website industry
                         summary news_links.

Definition small_letter (c : char) : bool := (97 <=? c) && (c <=? 122).

(** The text [urlparse] works on, for the string given to
    [is_valid_url]. *)
Definition url_text (url : pystr) : pystr :=
  remove_unsafe (lstrip_c0 (strip url)).

(** [u] is a scheme that reads [http] or [https] in any letter case,
    [://], a network location that is not empty, holds no delimiter and
    passes the checks of [urlparse], and then nothing or a delimiter and
    anything. *)
Definition http_url (E : Env) (u : pystr) : Prop :=
  exists sch loc rest,
    u = sch ++ lit "://" ++ loc ++ rest
    /\ (map ascii_lower sch = lit "http" \/ map ascii_lower sch = lit "https")
    /\ loc <> []
    /\ forallb (fun c => negb (delimiter c)) loc = true
    /\ match rest with [] => True | c :: _ => delimiter c = true end
    /\ check_netloc E loc = Ok tt.

(** A computation that leaves the disk alone, whatever it returns. *)
Definition keeps_disk {A} (m : M World A) : Prop :=
  forall w r w', m w = (r, w') -> disk w' = disk w.

(** ** Sample environments, to run the programs on *)

Module Sample.

Definition newsapi : pystr := lit "https://newsapi.org/v2/everything".

(** A page with a script, a heading, a paragraph of 6000 letters and a
    short section. *)
Definition page : list node :=
  [Elem (lit "html")
     [Elem (lit "script") [Text (lit "alert(1)")];
      Elem (lit "h1") [Text (lit "  Acme ")];
      Elem (lit "p") [Text (lit "Hello world")];
      Elem (lit "p") [Text (repeat 97 (60 * 100)%nat)];
      Elem (lit "section") [Text (lit "short")]]].

Definition article (title url : string) : json :=
  JObj [(lit "title", JStr (lit title));
        (lit "description", JStr (lit "text"));
        (lit "url", JStr (lit url))].

Definition two_articles : json :=
  JObj [(lit "status", JStr (lit "ok"));
        (lit "articles",
         JArr [article "Wind" "https://news.example/1";
               article "Sun" "https://news.example/2"])].

Definition reply (j : json) : Transport :=
  Responded {| status_code := 200; text := []; body_json := Some j |}.

(** The environment in which the news service answers [news], every
    other request [site], and the model [brief]. *)
Definition env (news site : Transport) (brief : result pystr)
           (gemini_key news_key : option pystr) : Env :=
  {| bracketed_netloc_valid := fun _ => true;
     nfkc_has_delimiter := fun _ => false;
     http_get := fun r => if str_eqb (req_url r) newsapi then news else site;
     html_parser := fun _ => page;
     generate_content := fun _ => brief;
     now_isoformat := lit "2024-05-01T12:00:00";
     format_value := fun _ => lit "None";
     GEMINI_API_KEY := gemini_key;
     NEWS_API_KEY := news_key |}.

(** Everything works. *)
Definition env_ok : Env :=
  env (reply two_articles)
      (Responded {| status_code := 200; text := lit "<html>";
                    body_json := None |})
      (Ok (lit "A brief.")) (Some (lit "g")) (Some (lit "n")).

(** The site times out, the news service answers, the model fails. *)
Definition env_degraded : Env :=
  env (reply two_articles) (Timed_out (lit "timed out"))
      (Raise (ModelError (lit "quota"))) (Some (lit "g")) (Some (lit "n")).

(** No key is configured; the services refuse the requests. *)
Definition env_no_keys : Env :=
  env (Responded {| status_code := 401; text := []; body_json := None |})
      (Failed (lit "unreachable"))
      (Raise (ModelError (lit "API key not valid"))) None None.

(** The news service answers 200 with the JSON document [[]]. *)
Definition env_news_array : Env :=
  env (reply (JArr [])) (Failed (lit "unreachable"))
      (Ok (lit "A brief.")) (Some (lit "g")) (Some (lit "n")).

(** The news service answers with six articles; the link of the sixth
    holds a lone surrogate (the JSON escape [\ud800]). *)
Definition env_surrogate : Env :=
  env (reply (JObj [(lit "status", JStr (lit "ok"));
                    (lit "articles",
                     JArr (repeat (article "Wind" "https://news.example/1") 5
                           ++ [JObj [(lit "title", JStr (lit "Sun"));
                                     (lit "url",
                                      JStr (lit "https://news.example/"
                                            ++ [55296]))]]))]))
      (Failed (lit "unreachable"))
      (Ok (lit "A brief.")) (Some (lit "g")) (Some (lit "n")).

(** [is_valid_url] of a literal. *)
Definition valid (url : string) : result bool :=
  fst (is_valid_url env_ok (lit url) tt).

Definition disk_with (l : list json) : Disk :=
  {| file := Some (Json (JArr l)); readable := true; writable := true |}.

Definition read_only (l : list json) : Disk :=
  {| file := Some (Json (JArr l)); readable := true; writable := false |}.

(** A store file whose bytes are not UTF-8. *)
Definition undecodable : Disk :=
  {| file := Some (Raising (UnicodeDecodeError
                              (lit "'utf-8' codec can't decode byte 0xff")));
     readable := true; writable := true |}.

Definition world (d : Disk) (lines : list pystr) : World :=
  {| disk := d; stdin := lines; trace := [] |}.

Definition alice : json :=
  JObj [(lit "name", JStr (lit "Alice")); (lit "company", JStr (lit "Acme"))].

Definition bob : json :=
  JObj [(lit "name", JStr (lit "Bob")); (lit "company", JStr (lit "Acme"))].

Definition jane : ContactInfo :=
  {| ci_name := lit "Jane Doe"; ci_role := []; ci_linkedin := [];
     ci_company := lit "Acme";
     ci_website := lit "https://acme.example/about";
     ci_industry := lit "renewable energy" |}.

(** What the user types for [jane], after a first, blank, name. *)
Definition jane_typed : list pystr :=
  [lit "   "; lit " Jane Doe "; lit "Acme"; []; []; lit "not a url";
   lit "https://acme.example/about"; lit "renewable energy"].

(** A stand-in for [int]: a string of ASCII digits, that is not empty. *)
Definition digits (s : pystr) : option Z :=
  match s with
  | [] => None
  | _ =>
      fold_left (fun acc c =>
                   match acc with
                   | Some n =>
                       if (48 <=? c) && (c <=? 57)
                       then Some (10 * n + Z.of_N (c - 48))%Z
                       else None
                   | None => None
                   end) s (Some 0%Z)
  end.

Definition gui (l : list json) (d : Disk) : App2.Gui :=
  {| App2.current_contacts := l; App2.dialogs := [];
     App2.world := world d [] |}.

End Sample.

(** ** main2.py: deleting a contact from the console menu *)

Module Main2Menu.
Section Program.

(** [int(choice)], Python's conversion of a string to an integer; [None]
    when it raises [ValueError]. *)
Variable py_int : pystr -> option Z.

(** [isinstance(e, ValueError)]; the JSON, Unicode and URL errors are
    subclasses. *)
Definition is_ValueError (e : exn) : bool :=
  match e with
  | ValueError _ | JSONDecodeError _ | RequestsJSONDecodeError _
  | UnicodeDecodeError _ | UnicodeEncodeError _
  | RequestsInvalidURL _ | LocationParseError _ => true
  | _ => false
  end.

(** [choice.lower() == 'q'] *)
Definition is_quit (choice : pystr) : bool :=
  str_eqb choice (lit "q") || str_eqb choice (lit "Q").

(** The loop that lists the contacts (188-192): three [contact.get]. *)
Fixpoint list_contacts (memory : list json) : M World unit :=
  match memory with
  | [] => ret tt
  | contact :: rest =>
      py_get contact (lit "name") (JStr (lit "Unknown")) ;;;
      py_get contact (lit "company") (JStr (lit "Unknown Company")) ;;;
      py_get contact (lit "role") (JStr (lit "Unknown Role")) ;;;
      list_contacts rest
  end.

(** [delete_contact] (178-215) *)
Definition delete_contact : M World unit :=
  memory <- Main2.load_memory ;;
  match memory with
  | [] => ret tt
  | _ =>
      list_contacts memory ;;;
      try_except
        (choice <- Main2.input_until (fun _ => Ok true) ;;
         if is_quit choice then ret tt
         else
           choice_num <-
             call (match py_int choice with
                   | Some n => Ok n
                   | None => Raise (ValueError (lit "invalid literal for int()"))
                   end) ;;
           if ((1 <=? choice_num) && (choice_num <=? Z.of_nat (List.length memory)))%Z
           then
             let i := Z.to_nat (choice_num - 1) in
             let removed := nth i memory JNull in
             let memory := App2.pop i memory in
             saved <- Main2.save_memory memory ;;
             if saved
             then
               py_get removed (lit "name") (JStr (lit "Unknown")) ;;;
               py_get removed (lit "company") (JStr (lit "Unknown Company")) ;;;
               ret tt
             else ret tt
           else ret tt)
        (fun e => if is_ValueError e then Some (ret tt) else None)
  end.

End Program.
End Main2Menu.

(** ** More predicates *)

(** Whitespace is normalized in [s]: every whitespace character is a
    space, and none comes first or right after another.  [after_space]
    tells that the character before [s] was whitespace (or that [s] is at
    the start). *)
Fixpoint ws_normal (after_space : bool) (s : pystr) : bool :=
  match s with
  | [] => true
  | c :: r =>
      if isspace c
      then (c =? 32) && negb after_space && ws_normal true r
      else ws_normal false r
  end.

(** [article.get(key, '')], for an article that is a dict. *)
Definition article_get (article : json) (key : pystr) : json :=
  match article with
  | JObj kv => dict_get kv key (JStr [])
  | _ => JStr []
  end.

(** [title or description] *)
Definition has_text (article : json) : bool :=
  truthy (article_get article (lit "title"))
  || truthy (article_get article (lit "description")).

(** The line of the news buffer an article gives. *)
Definition news_line (E : Env) (article : json) : pystr :=
  [8226; 32] ++ fmt E (article_get article (lit "title")) ++ lit ": "
  ++ fmt E (article_get article (lit "description")).

Definition is_http (ev : Event) : bool :=
  match ev with EvHttpGet _ => true | _ => false end.

Definition is_generate (ev : Event) : bool :=
  match ev with EvGenerate _ => true | _ => false end.

Definition is_save (ev : Event) : bool :=
  match ev with EvSave _ => true | _ => false end.

(** The world after one more event. *)
Definition after_event (w : World) (ev : Event) : World :=
  {| disk := disk w; stdin := stdin w; trace := trace w ++ [ev] |}.



(** [part] occurs in [s]. *)
Definition contains (part s : pystr) : Prop :=
  exists before after, s = before ++ part ++ after.

(** The value of a field of a stored record. *)
Definition field (contact : json) (key : pystr) : json :=
  match contact with
  | JObj kv => dict_get kv key JNull
  | _ => JNull
  end.

(** A stored record whose name and company are strings that are not
    blank. *)
Definition well_named (contact : json) : Prop :=
  exists name company,
    field contact (lit "name") = JStr name /\ blank name = false
    /\ field contact (lit "company") = JStr company /\ blank company = false.

(** * Properties *)

(** ** Strings *)

Lemma str_eqb_eq (s t : pystr) : str_eqb s t = true <-> s = t.
Proof.
  revert t; induction s as [|c s IH]; intros [|d t]; simpl;
    try (split; [discriminate | intros H; discriminate H]);
    try tauto.
  rewrite andb_true_iff, N.eqb_eq, IH.
  split; [intros [-> ->]; reflexivity | intros H; inversion H; auto].
Qed.

Lemma str_eqb_refl (s : pystr) : str_eqb s s = true.
Proof. apply str_eqb_eq; reflexivity. Qed.

Lemma slice_to_length (n : nat) (s : pystr) :
  (List.length (slice_to n s) <= n)%nat.
Proof. unfold slice_to. apply firstn_le_length. Qed.

Lemma str_truthy_false (s : pystr) : str_truthy s = false <-> s = [].
Proof. destruct s; simpl; split; congruence. Qed.

Lemma str_truthy_true (s : pystr) : str_truthy s = true <-> s <> [].
Proof. destruct s; simpl; split; congruence. Qed.

(** What [lstrip] returns does not start with whitespace. *)
Lemma lstrip_head (s : pystr) :
  match lstrip s with
  | [] => True
  | c :: _ => isspace c = false
  end.
Proof.
  induction s as [|c s IH]; simpl; [exact I|].
  destruct (isspace c) eqn:Hc; [exact IH | exact Hc].
Qed.

Lemma lstrip_fixed (s : pystr) :
  match s with [] => True | c :: _ => isspace c = false end ->
  lstrip s = s.
Proof. destruct s as [|c s]; simpl; [reflexivity|]. intros ->; reflexivity. Qed.

Lemma lstrip_idem (s : pystr) : lstrip (lstrip s) = lstrip s.
Proof. apply lstrip_fixed, lstrip_head. Qed.

(** [lstrip] never eats a last character that is not whitespace. *)
Lemma lstrip_keeps_last (l : pystr) (c : char) :
  isspace c = false -> exists x, lstrip (l ++ [c]) = x ++ [c].
Proof.
  intros Hc. induction l as [|d l IH]; simpl.
  - rewrite Hc. exists []; reflexivity.
  - destruct (isspace d); [exact IH|]. exists (d :: l); reflexivity.
Qed.

Lemma rstrip_rev (s : pystr) : rstrip s = rev (lstrip (rev s)).
Proof. unfold rstrip. rewrite <- !rev_alt. reflexivity. Qed.

(** [rstrip] keeps a first character that is not whitespace. *)
Lemma rstrip_head (s : pystr) :
  match s with [] => True | c :: _ => isspace c = false end ->
  match rstrip s with [] => True | c :: _ => isspace c = false end.
Proof.
  destruct s as [|c s]; intros Hc.
  - exact I.
  - rewrite rstrip_rev. simpl rev.
    destruct (lstrip_keeps_last (rev s) c Hc) as [x ->].
    rewrite rev_app_distr. simpl. exact Hc.
Qed.

Lemma rstrip_idem (s : pystr) : rstrip (rstrip s) = rstrip s.
Proof. rewrite !rstrip_rev, rev_involutive, lstrip_idem. reflexivity. Qed.

(** [s.strip().strip() == s.strip()] *)
Lemma strip_idem (s : pystr) : strip (strip s) = strip s.
Proof.
  unfold strip.
  rewrite (lstrip_fixed (rstrip (lstrip s))).
  - apply rstrip_idem.
  - apply rstrip_head, lstrip_head.
Qed.

Lemma strip_nil : strip [] = [].
Proof. reflexivity. Qed.

Lemma lstrip_nil_iff (s : pystr) : lstrip s = [] <-> blank s = true.
Proof.
  induction s as [|c s IH]; simpl; [tauto|].
  destruct (isspace c); simpl; [exact IH|].
  split; discriminate.
Qed.

Lemma blank_rev (s : pystr) : blank (rev s) = blank s.
Proof.
  unfold blank. induction s as [|c s IH]; simpl; [reflexivity|].
  rewrite forallb_app, IH. simpl. rewrite andb_true_r. apply andb_comm.
Qed.

Lemma blank_lstrip (s : pystr) : blank (lstrip s) = blank s.
Proof.
  induction s as [|c s IH]; simpl; [reflexivity|].
  destruct (isspace c) eqn:Hc; simpl; [exact IH|].
  rewrite Hc. reflexivity.
Qed.

(** [not s.strip()] holds exactly of the blank strings. *)
Lemma strip_nil_iff (s : pystr) : strip s = [] <-> blank s = true.
Proof.
  unfold strip. rewrite rstrip_rev.
  rewrite <- (blank_lstrip s), <- (blank_rev (lstrip s)), <- lstrip_nil_iff.
  split; intros H.
  - apply (f_equal (@rev char)) in H. rewrite rev_involutive in H. exact H.
  - rewrite H. reflexivity.
Qed.

Lemma strip_truthy_iff (s : pystr) :
  str_truthy (strip s) = true <-> blank s = false.
Proof.
  rewrite str_truthy_true, strip_nil_iff. destruct (blank s); split; congruence.
Qed.

Lemma strip_falsy_iff (s : pystr) :
  str_truthy (strip s) = false <-> blank s = true.
Proof. rewrite str_truthy_false. apply strip_nil_iff. Qed.

(** ** The monad *)

Lemma bind_ok {S A B} (m : M S A) (k : A -> M S B) s a s1 :
  m s = (Ok a, s1) -> bind m k s = k a s1.
Proof. unfold bind. intros ->. reflexivity. Qed.

Lemma bind_raise {S A B} (m : M S A) (k : A -> M S B) s e s1 :
  m s = (Raise e, s1) -> bind m k s = (Raise e, s1).
Proof. unfold bind. intros ->. reflexivity. Qed.

Lemma bind_inv {S A B} (m : M S A) (k : A -> M S B) s b s' :
  bind m k s = (Ok b, s') ->
  exists a s1, m s = (Ok a, s1) /\ k a s1 = (Ok b, s').
Proof.
  unfold bind. destruct (m s) as [[a|e] s1]; intros H.
  - exists a, s1. split; [reflexivity | exact H].
  - discriminate H.
Qed.

(** A [try] whose handler catches every exception and returns a value
    never raises. *)
Lemma try_except_total {S A} (m : M S A) (f : exn -> A) s :
  exists a s', try_except m (fun e => Some (ret (f e))) s = (Ok a, s').
Proof.
  unfold try_except. destruct (m s) as [[a|e] s1].
  - exists a, s1; reflexivity.
  - exists (f e), s1; reflexivity.
Qed.

Ltac run :=
  unfold bind, try_except, ret, raise, call, log, get_disk, set_disk in *;
  simpl in *.

(** ** URL validation *)

(** [is_valid_url] never raises, and answers [True] exactly when
    [urlparse] of the stripped string succeeds with a scheme that is
    [http] or [https] and a non-empty network location; a string
    [urlparse] rejects gives [False]. *)
Lemma is_valid_url_parse (E : Env) (S : Type) (url : pystr) (s : S) :
  exists b,
    is_valid_url E url s = (Ok b, s)
    /\ (b = true <->
        exists r, urlparse E (strip url) = Ok r
                  /\ (scheme r = lit "http" \/ scheme r = lit "https")
                  /\ netloc r <> []).
Proof.
  unfold is_valid_url. run.
  destruct (urlparse E (strip url)) as [r|e].
  - exists (scheme_and_netloc_ok r). split; [reflexivity|].
    unfold scheme_and_netloc_ok.
    rewrite andb_true_iff, orb_true_iff, !str_eqb_eq, str_truthy_true.
    split.
    + intros [Hs Hn]. exists r. auto.
    + intros (r' & Hr & Hs & Hn). inversion Hr; subst r'. auto.
  - exists false. split; [reflexivity|].
    split; [discriminate|]. intros (r & Hr & _). discriminate Hr.
Qed.

Lemma before_colon_some (u a b : pystr) :
  before_colon u = Some (a, b) -> u = a ++ 58 :: b.
Proof.
  revert a b. induction u as [|c r IH]; intros a b; simpl; [discriminate|].
  destruct (c =? 58) eqn:Hc.
  - intros H. inversion H; subst. apply N.eqb_eq in Hc. subst c. reflexivity.
  - destruct (before_colon r) as [[a' b']|]; [|discriminate].
    intros H. inversion H; subst. simpl. f_equal. apply IH. reflexivity.
Qed.

Lemma before_colon_app (a b : pystr) :
  forallb (fun c => negb (c =? 58)) a = true ->
  before_colon (a ++ 58 :: b) = Some (a, b).
Proof.
  induction a as [|c a IH]; simpl; [reflexivity|].
  intros H. apply andb_true_iff in H as [H1 H2].
  apply negb_true_iff in H1. rewrite H1, IH by exact H2. reflexivity.
Qed.

Lemma authority_app (loc rest : pystr) :
  forallb (fun c => negb (delimiter c)) loc = true ->
  match rest with [] => True | c :: _ => delimiter c = true end ->
  authority (loc ++ rest) = loc.
Proof.
  intros Hl Hr. induction loc as [|c loc IH]; simpl in *.
  - destruct rest as [|c rest]; simpl; [reflexivity|]. rewrite Hr. reflexivity.
  - apply andb_true_iff in Hl as [H1 H2]. apply negb_true_iff in H1.
    rewrite H1, IH by exact H2. reflexivity.
Qed.

(** The network location holds no delimiter, and what follows it starts
    with one. *)
Lemma authority_split (s : pystr) :
  exists rest,
    s = authority s ++ rest
    /\ forallb (fun c => negb (delimiter c)) (authority s) = true
    /\ match rest with [] => True | c :: _ => delimiter c = true end.
Proof.
  induction s as [|c r (rest & H1 & H2 & H3)]; simpl.
  - exists []. auto.
  - destruct (delimiter c) eqn:Hc.
    + exists (c :: r). simpl. auto.
    + exists rest. simpl. rewrite Hc, H2. simpl.
      split; [f_equal; exact H1 | auto].
Qed.

(** A character that is a small letter in lower case is a letter. *)
Lemma ascii_lower_letter (c : char) :
  small_letter (ascii_lower c) = true ->
  is_ascii_alpha c = true /\ scheme_char c = true /\ negb (c =? 58) = true.
Proof.
  unfold small_letter, ascii_lower, scheme_char, is_ascii_alpha. intros H.
  destruct ((65 <=? c) && (c <=? 90)) eqn:Hu.
  - repeat split; try reflexivity.
    apply andb_true_iff in Hu as [H1 H2]. apply N.leb_le in H1, H2.
    apply negb_true_iff, N.eqb_neq. lia.
  - rewrite H. repeat split; try reflexivity.
    apply andb_true_iff in H as [H1 H2]. apply N.leb_le in H1, H2.
    apply negb_true_iff, N.eqb_neq. lia.
Qed.

Lemma ascii_lower_letters (raw : pystr) :
  forallb small_letter (map ascii_lower raw) = true ->
  forallb scheme_char raw = true
  /\ forallb (fun c => negb (c =? 58)) raw = true.
Proof.
  induction raw as [|c raw IH]; simpl; [auto|].
  intros H. apply andb_true_iff in H as [H1 H2].
  destruct (ascii_lower_letter c H1) as (_ & Hs & Hc).
  destruct (IH H2) as [IH1 IH2]. rewrite Hs, Hc, IH1, IH2. auto.
Qed.

(** A scheme was found: the text starts with it, in some letter case,
    and a colon. *)
Lemma split_scheme_found (u sch rest : pystr) :
  split_scheme u = (sch, rest) -> sch <> [] ->
  exists raw, u = raw ++ 58 :: rest /\ sch = map ascii_lower raw.
Proof.
  unfold split_scheme. intros H Hne.
  destruct (before_colon u) as [[[|c pre] post]|] eqn:Hb;
    try (inversion H; subst; contradiction).
  destruct (is_ascii_alpha c && forallb scheme_char (c :: pre));
    inversion H; subst; [|contradiction].
  exists (c :: pre). split; [|reflexivity].
  apply before_colon_some. exact Hb.
Qed.

(** A text that starts with letters and a colon has them as scheme. *)
Lemma split_scheme_letters (raw rest : pystr) :
  raw <> [] ->
  forallb small_letter (map ascii_lower raw) = true ->
  split_scheme (raw ++ 58 :: rest) = (map ascii_lower raw, rest).
Proof.
  intros Hne Hl. unfold split_scheme.
  destruct (ascii_lower_letters raw Hl) as [Hs Hc].
  rewrite before_colon_app by exact Hc.
  destruct raw as [|c pre]; [contradiction|].
  simpl in Hl. apply andb_true_iff in Hl as [Hl _].
  destruct (ascii_lower_letter c Hl) as (Ha & _ & _).
  rewrite Ha, Hs. reflexivity.
Qed.

Lemma after_slashes_some (u rest : pystr) :
  after_slashes u = Some rest <-> u = 47 :: 47 :: rest.
Proof.
  unfold after_slashes. split.
  - destruct u as [|c1 [|c2 r]]; try discriminate.
    destruct (N.eqb_spec c1 47); [|discriminate].
    destruct (N.eqb_spec c2 47); [|discriminate].
    simpl. intros H. inversion H; subst. reflexivity.
  - intros ->. reflexivity.
Qed.

Lemma http_or_https_letters (sch : pystr) :
  sch = lit "http" \/ sch = lit "https" ->
  sch <> [] /\ forallb small_letter sch = true.
Proof. intros [->| ->]; split; solve [discriminate | reflexivity]. Qed.

(** What [urlparse] accepts with scheme [http] or [https] and a network
    location, told on the text it works on. *)
Lemma urlparse_http_url (E : Env) (url : pystr) :
  (exists r, urlparse E url = Ok r
             /\ (scheme r = lit "http" \/ scheme r = lit "https")
             /\ netloc r <> [])
  <-> http_url E (remove_unsafe (lstrip_c0 url)).
Proof.
  unfold urlparse, http_url.
  set (u := remove_unsafe (lstrip_c0 url)). clearbody u. split.
  - intros (r & Hr & Hs & Hn).
    destruct (split_scheme u) as [sch u'] eqn:Hsplit.
    destruct (after_slashes u') as [rest|] eqn:Hsl.
    + destruct (check_netloc E (authority rest)) as [[]|e] eqn:Hck;
        [|discriminate].
      inversion Hr; subst r; simpl in *.
      destruct (http_or_https_letters sch Hs) as [Hne _].
      destruct (split_scheme_found _ _ _ Hsplit Hne) as (raw & Hu & Hraw).
      apply after_slashes_some in Hsl.
      destruct (authority_split rest) as (tail & Ht & Hd & Hshape).
      exists raw, (authority rest), tail.
      rewrite <- Hraw. repeat split; auto.
      rewrite Hu, Hsl. simpl. rewrite <- Ht. reflexivity.
    + inversion Hr; subst r. simpl in Hn. contradiction.
  - intros (raw & loc & tail & Hu & Hs & Hn & Hd & Hshape & Hck).
    destruct (http_or_https_letters _ Hs) as [Hne Hl].
    assert (Hraw : raw <> []) by (intros ->; apply Hne; reflexivity).
    subst u. change (lit "://" ++ loc ++ tail)
      with (58 :: 47 :: 47 :: loc ++ tail).
    rewrite split_scheme_letters by assumption. simpl.
    rewrite authority_app by assumption. rewrite Hck.
    eexists. split; [reflexivity|]. simpl. auto.
Qed.

(** C9 (as amended).  [is_valid_url] never raises, and it answers [True]
    exactly when the text [urlparse] works on (the stripped string,
    without control characters and spaces in front, and without tab,
    carriage return and line feed) is a scheme that reads [http] or
    [https] in any letter case, [://], a network location that is not
    empty and passes the checks of [urlparse], and then nothing or [/],
    [?] or [#] and anything; every other input gives [False]. *)
Theorem is_valid_url_iff (E : Env) (S : Type) (url : pystr) (s : S) :
  exists b,
    is_valid_url E url s = (Ok b, s)
    /\ (b = true <-> http_url E (url_text url)).
Proof.
  destruct (is_valid_url_parse E S url s) as (b & Hrun & Hb).
  exists b. split; [exact Hrun|].
  rewrite Hb. apply urlparse_http_url.
Qed.

(** C9 as stated fails on the host: the test is on the network location,
    so a URL with a port or with user information and no host is valid,
    though [urlparse] gives it no host name. *)
Lemma is_valid_url_without_host :
  Sample.valid "http://:80" = Ok true
  /\ Sample.valid "  https://user@/x " = Ok true
  /\ (exists r, urlparse Sample.env_ok (lit "http://:80") = Ok r
                /\ netloc r = lit ":80" /\ hostinfo r = [])
  /\ (exists r, urlparse Sample.env_ok (lit "https://user@/x") = Ok r
                /\ netloc r = lit "user@" /\ hostinfo r = []).
Proof.
  repeat split; eexists; repeat split; reflexivity.
Qed.

Example is_valid_url_examples :
  Sample.valid "  https://acme.example/about " = Ok true
  /\ Sample.valid "http://acme.example" = Ok true
  /\ Sample.valid "HTTP://acme.example?q=1" = Ok true
  /\ Sample.valid "ftp://acme.example" = Ok false
  /\ Sample.valid "acme.example" = Ok false
  /\ Sample.valid "https:///about" = Ok false
  /\ Sample.valid "https:acme.example" = Ok false
  /\ Sample.valid "1http://acme.example" = Ok false
  /\ Sample.valid "http://[::1" = Ok false.
Proof. repeat split. Qed.

(** ** Scraping *)

Lemma scrape_website_returns (E : Env) (url : pystr) (w w' : World)
      (content : pystr) :
  scrape_website E url w = (Ok content, w') ->
  exists html, content = extract_content E html.
Proof.
  unfold scrape_website. intros H.
  apply bind_inv in H as (valid & w1 & _ & H).
  destruct (negb valid); [discriminate H|].
  apply bind_inv in H as (response & w2 & _ & H).
  exists (text response). run. congruence.
Qed.

(** C6.  The text a successful [scrape_website] returns has at most 5000
    characters, whatever the page. *)
Theorem scrape_website_at_most_5000 (E : Env) (url : pystr) (w w' : World)
        (content : pystr) :
  scrape_website E url w = (Ok content, w') ->
  (List.length content <= 5000)%nat.
Proof.
  intros H. apply scrape_website_returns in H as [html ->].
  unfold extract_content. apply slice_to_length.
Qed.

(** On the sample page, whose paragraph has 6000 letters, the cap is
    reached; the script is gone and the paragraphs are kept. *)
Lemma scrape_website_at_most_5000_witness :
  (List.length (extract_content Sample.env_ok (lit "<html>")) <= 5000)%nat.
Proof.
  apply (scrape_website_at_most_5000 Sample.env_ok
           (lit "https://acme.example/about")
           (Sample.world (Sample.disk_with []) [])
           (snd (scrape_website Sample.env_ok (lit "https://acme.example/about")
                                (Sample.world (Sample.disk_with []) [])))).
  vm_compute. reflexivity.
Defined.

Example scrape_website_cap_reached :
  List.length (extract_content Sample.env_ok (lit "<html>")) = 5000%nat
  /\ slice_to 17 (extract_content Sample.env_ok (lit "<html>"))
     = lit "Acme Hello world ".
Proof. split; vm_compute; reflexivity. Qed.

Example scrape_website_invalid_url :
  fst (scrape_website Sample.env_ok (lit "acme.example")
                      (Sample.world (Sample.disk_with []) []))
  = Raise (ValueError (lit "Invalid URL provided")).
Proof. reflexivity. Qed.

Example scrape_website_timeout :
  scrape_website Sample.env_degraded (lit "https://acme.example/about")
                 (Sample.world (Sample.disk_with []) [])
  = (Raise (RuntimeError (lit "Website request timed out")),
     {| disk := Sample.disk_with []; stdin := [];
        trace := [EvHttpGet {| req_url := lit "https://acme.example/about";
                               req_params := [];
                               req_headers := [(lit "User-Agent", user_agent)];
                               req_timeout := 10 |}] |}).
Proof. reflexivity. Qed.

(** ** News *)

(** C3 (as amended).  With a blank query both [fetch_news] return the
    empty list and leave the world as it is: no request is sent.  The GUI's
    [fetch_news] does the same when no API key is configured; the
    console's does not look at the key. *)
Theorem fetch_news_without_request (E : Env) (api_key : option pystr)
        (query : pystr) (num_articles : Z) (w : World) :
  blank query = true \/ App2.key_missing api_key = true ->
  App2.fetch_news E api_key query num_articles w = (Ok [], w)
  /\ (blank query = true ->
      Main2.fetch_news E api_key query num_articles w = (Ok [], w)).
Proof.
  intros H. split.
  - unfold App2.fetch_news.
    destruct H as [H|H].
    + apply strip_falsy_iff in H. rewrite H. reflexivity.
    + rewrite H, orb_true_r. reflexivity.
  - intros Hq. unfold Main2.fetch_news.
    apply strip_falsy_iff in Hq. rewrite Hq. reflexivity.
Qed.

Lemma fetch_news_without_request_witness :
  App2.fetch_news Sample.env_ok None (lit "solar") 5
                  (Sample.world (Sample.disk_with []) [])
  = (Ok [], Sample.world (Sample.disk_with []) [])
  /\ Main2.fetch_news Sample.env_ok (Some (lit "n")) (lit "  ") 5
                      (Sample.world (Sample.disk_with []) [])
     = (Ok [], Sample.world (Sample.disk_with []) []).
Proof.
  split.
  - apply (fetch_news_without_request Sample.env_ok None (lit "solar") 5).
    right. reflexivity.
  - apply (fetch_news_without_request Sample.env_ok (Some (lit "n")) (lit "  ") 5).
    + left. reflexivity.
    + reflexivity.
Defined.

(** C3 as stated fails on the console's [fetch_news]: with no key and the
    query [solar] it sends the request (which the service refuses). *)
Lemma main2_fetch_news_sends_request_without_key :
  let w := Sample.world (Sample.disk_with []) [] in
  App2.key_missing None = true
  /\ Main2.fetch_news Sample.env_no_keys None (lit "solar") 5 w
     = (Ok [],
        {| disk := disk w; stdin := stdin w;
           trace := [EvHttpGet (news_request None (lit "solar") 5)] |})
  /\ Main2.fetch_news Sample.env_no_keys None (lit "solar") 5 w <> (Ok [], w).
Proof. repeat split. discriminate. Qed.

(** The GUI's [fetch_news] never raises. *)
Lemma app2_fetch_news_never_raises (E : Env) (api_key : option pystr)
      (query : pystr) (num_articles : Z) (w : World) :
  exists articles w',
    App2.fetch_news E api_key query num_articles w = (Ok articles, w').
Proof.
  unfold App2.fetch_news.
  destruct (negb (str_truthy (strip query)) || App2.key_missing api_key).
  - exists [], w. reflexivity.
  - apply (try_except_total _ (fun _ => [])).
Qed.

(** The failures the console's [fetch_news] turns into an empty list: a
    request refused with a [RequestException], a timeout, another
    transport error, an HTTP error status, a body that is not JSON, a
    status field other than [ok], articles that are no list. *)
Lemma main2_fetch_news_degrades (E : Env) (api_key : option pystr)
      (query : pystr) (num_articles : Z) (w : World) :
  match http_get E (news_request api_key (Main2.sanitize_input query)
                                 num_articles) with
  | Rejected e => is_RequestException e = true
  | Timed_out _ | Failed _ => True
  | Responded resp =>
      (400 <=? status_code resp) && (status_code resp <? 600) = true
      \/ body_json resp = None
      \/ exists kv,
          body_json resp = Some (JObj kv)
          /\ (json_eq_str (dict_get kv (lit "status") JNull) (lit "ok") = false
              \/ forall l, dict_get kv (lit "articles") (JArr []) <> JArr l)
  end ->
  exists w', Main2.fetch_news E api_key query num_articles w = (Ok [], w').
Proof.
  unfold Main2.fetch_news, request_articles, requests_get.
  destruct (negb (str_truthy (strip query))); [intros _; eexists; reflexivity|].
  run.
  destruct (http_get E _) as [e|m|m|resp]; simpl;
    try (intros _; eexists; reflexivity).
  { intros ->. destruct (is_Timeout e); eexists; reflexivity. }
  unfold raise_for_status, response_json, py_get. run.
  destruct ((400 <=? status_code resp) && (status_code resp <? 600)); simpl.
  { intros _; eexists; reflexivity. }
  intros [H|[H|(kv & H & Hkv)]]; [discriminate H | |]; rewrite H; simpl.
  { eexists; reflexivity. }
  destruct Hkv as [Hs|Ha].
  - rewrite Hs. simpl. eexists; reflexivity.
  - destruct (negb _); simpl; [eexists; reflexivity|].
    destruct (dict_get kv (lit "articles") (JArr [])) eqn:Hd;
      try (eexists; reflexivity).
    exfalso. exact (Ha _ eq_refl).
Qed.

(** The console's [fetch_news] raises only when [requests.get] refuses
    the request with an exception that is no [RequestException], or when
    the service answers, with a success status, a JSON document that is
    not an object. *)
Lemma main2_fetch_news_raises_only_on_non_object (E : Env)
      (api_key : option pystr) (query : pystr) (num_articles : Z)
      (w w' : World) (e : exn) :
  Main2.fetch_news E api_key query num_articles w = (Raise e, w') ->
  (http_get E (news_request api_key (Main2.sanitize_input query) num_articles)
   = Rejected e /\ is_RequestException e = false)
  \/ exists resp j,
      http_get E (news_request api_key (Main2.sanitize_input query)
                               num_articles)
      = Responded resp
      /\ body_json resp = Some j /\ ~ is_dict j.
Proof.
  unfold Main2.fetch_news, request_articles, requests_get.
  destruct (negb (str_truthy (strip query))); [discriminate|].
  run.
  destruct (http_get E _) as [e'|m|m|resp]; simpl; try discriminate.
  { destruct (is_Timeout e'); [discriminate|].
    destruct (is_RequestException e') eqn:He; [discriminate|].
    intros H. inversion H; subst. left. auto. }
  unfold raise_for_status, response_json, py_get. run.
  destruct ((400 <=? status_code resp) && (status_code resp <? 600)); simpl;
    try discriminate.
  destruct (body_json resp) as [j|] eqn:Hb; simpl; try discriminate.
  intros H. right. exists resp, j. split; [reflexivity|]. split; [exact Hb|].
  intros [kv ->]. simpl in H.
  destruct (negb _); simpl in H; [discriminate H|].
  destruct (dict_get kv (lit "articles") (JArr [])); discriminate H.
Qed.

(** C5 fails on the console's [fetch_news]: when the service answers 200
    with the JSON document [[]], [data.get] raises [AttributeError], which
    neither [except] clause catches. *)
Theorem main2_fetch_news_raises_on_array_body :
  let w := Sample.world (Sample.disk_with []) [] in
  http_get Sample.env_news_array (news_request (Some (lit "n")) (lit "solar") 5)
  = Responded {| status_code := 200; text := [];
                 body_json := Some (JArr []) |}
  /\ Main2.fetch_news Sample.env_news_array (Some (lit "n")) (lit "solar") 5 w
     = (Raise (AttributeError (lit "object has no attribute 'get'")),
        {| disk := disk w; stdin := stdin w;
           trace := [EvHttpGet (news_request (Some (lit "n")) (lit "solar") 5)] |})
  /\ App2.fetch_news Sample.env_news_array (Some (lit "n")) (lit "solar") 5 w
     = (Ok [],
        {| disk := disk w; stdin := stdin w;
           trace := [EvHttpGet (news_request (Some (lit "n")) (lit "solar") 5)] |}).
Proof. repeat split. Qed.

(** ** Brief generation *)

(** C4 (as amended).  With blank content both [generate_summary] return
    their fixed sentinel and leave the world as it is: the model is not
    invoked.  The GUI's [generate_summary] does the same when no model key
    is configured; the console's does not look at the key. *)
Theorem generate_summary_without_model (E : Env) (content : pystr)
        (contact_info : ContactInfo) (w : World) :
  blank content = true \/ App2.key_missing (GEMINI_API_KEY E) = true ->
  App2.generate_summary E content contact_info w
  = (Ok App2.unavailable_sentinel, w)
  /\ (blank content = true ->
      Main2.generate_summary E content contact_info w
      = (Ok Main2.no_content_sentinel, w)).
Proof.
  intros H. split.
  - unfold App2.generate_summary.
    destruct H as [H|H].
    + apply strip_falsy_iff in H. rewrite H. reflexivity.
    + rewrite H, orb_true_r. reflexivity.
  - intros Hc. unfold Main2.generate_summary.
    apply strip_falsy_iff in Hc. rewrite Hc. reflexivity.
Qed.

Lemma generate_summary_without_model_witness :
  App2.generate_summary Sample.env_no_keys (lit "Some content") Sample.jane
                        (Sample.world (Sample.disk_with []) [])
  = (Ok App2.unavailable_sentinel, Sample.world (Sample.disk_with []) [])
  /\ Main2.generate_summary Sample.env_ok (lit " ") Sample.jane
                            (Sample.world (Sample.disk_with []) [])
     = (Ok Main2.no_content_sentinel, Sample.world (Sample.disk_with []) []).
Proof.
  split.
  - apply (generate_summary_without_model Sample.env_no_keys).
    right. reflexivity.
  - apply (generate_summary_without_model Sample.env_ok (lit " ")).
    + left. reflexivity.
    + reflexivity.
Defined.

(** C4 as stated fails on the console's [generate_summary]: with no key
    and some content it invokes the model, and what it returns is the
    failure text, not the sentinel. *)
Lemma main2_generate_summary_invokes_model_without_key :
  let w := Sample.world (Sample.disk_with []) [] in
  App2.key_missing (GEMINI_API_KEY Sample.env_no_keys) = true
  /\ Main2.generate_summary Sample.env_no_keys (lit "Some content") Sample.jane w
     = (Ok (Main2.fallback_summary Sample.jane),
        {| disk := disk w; stdin := stdin w;
           trace := [EvGenerate (build_prompt (lit "    ") Sample.jane
                                              (lit "Some content"))] |})
  /\ Main2.fallback_summary Sample.jane <> Main2.no_content_sentinel.
Proof. repeat split. discriminate. Qed.

(** Neither [generate_summary] raises, and the console's returns the
    model's text, the sentinel or the failure text. *)
Lemma main2_generate_summary_total (E : Env) (content : pystr)
      (contact_info : ContactInfo) (w : World) :
  exists summary w',
    Main2.generate_summary E content contact_info w = (Ok summary, w')
    /\ disk w' = disk w
    /\ summary_shape E contact_info summary.
Proof.
  unfold Main2.generate_summary, summary_shape.
  destruct (negb (str_truthy (strip content))).
  - exists Main2.no_content_sentinel, w. auto.
  - unfold model_generate. run.
    destruct (generate_content E _) as [summary|e] eqn:Hg;
      eexists; eexists; (split; [reflexivity|]); (split; [reflexivity|]).
    + left. eexists. exact Hg.
    + right. right. reflexivity.
Qed.

(** ** The store *)

(** [load_memory] changes nothing.  A missing, unreadable or unparseable
    file, or a document that is no list, reads as the empty list; an
    exception of the read other than [JSONDecodeError] and [IOError]
    leaves the function. *)
Lemma load_memory_run (w : World) :
  Main2.load_memory w
  = match load_failure w with
    | Some e => (Raise e, w)
    | None => (Ok (stored_contacts w), w)
    end.
Proof.
  destruct w as [[[[|e|j]|] [|] can_write] lines events]; try reflexivity.
  - unfold load_failure, Main2.load_memory. run.
    destruct (is_JSONDecodeError_or_IOError e); reflexivity.
  - destruct j; reflexivity.
Qed.

Lemma load_memory_ok (w : World) :
  load_failure w = None ->
  Main2.load_memory w = (Ok (stored_contacts w), w).
Proof. intros H. rewrite load_memory_run, H. reflexivity. Qed.

(** [save_memory] writes the list and answers [True]; it answers [False]
    when the file cannot be opened for writing; and when the list holds a
    surrogate, [UnicodeEncodeError] leaves the function and the file is
    left unparseable. *)
Lemma save_memory_run (memory_data : list json) (w : World) :
  Main2.save_memory memory_data w
  = if writable (disk w)
    then
      if json_encodable (JArr memory_data)
      then (Ok true,
            {| disk := {| file := Some (Json (JArr memory_data));
                          readable := readable (disk w);
                          writable := writable (disk w) |};
               stdin := stdin w;
               trace := trace w ++ [EvSave (JArr memory_data)] |})
      else (Raise (UnicodeEncodeError (lit "surrogates not allowed")),
            {| disk := {| file := Some Garbage;
                          readable := readable (disk w);
                          writable := writable (disk w) |};
               stdin := stdin w;
               trace := trace w ++ [EvSave (JArr memory_data)] |})
    else (Ok false,
          {| disk := disk w; stdin := stdin w;
             trace := trace w ++ [EvSave (JArr memory_data)] |}).
Proof.
  destruct w as [[content can_read [|]] lines events];
    unfold Main2.save_memory, open_and_dump; run; [|reflexivity].
  destruct (forallb json_encodable memory_data); reflexivity.
Qed.

(** [save_to_memory] refuses a blank name or company, and otherwise saves
    what it loaded with the new record at the end. *)
Lemma save_to_memory_run (E : Env)
      (name role linkedin company website industry summary : pystr)
      (news_links : option (list json)) (w : World) :
  Main2.save_to_memory E name role linkedin company website industry
                       summary news_links w
  = if blank name || blank company then (Ok false, w)
    else match load_failure w with
         | Some e => (Raise e, w)
         | None =>
             Main2.save_memory
               (stored_contacts w
                ++ [Main2.new_entry E name role linkedin company website
                                    industry summary news_links]) w
         end.
Proof.
  unfold Main2.save_to_memory.
  destruct (blank name) eqn:Hn; simpl.
  { apply strip_falsy_iff in Hn. rewrite Hn. reflexivity. }
  destruct (blank company) eqn:Hc; simpl.
  { apply strip_falsy_iff in Hc. rewrite Hc, andb_false_r. reflexivity. }
  apply strip_truthy_iff in Hn, Hc. rewrite Hn, Hc. simpl.
  unfold bind at 1. rewrite load_memory_run.
  destruct (load_failure w); [reflexivity|].
  unfold bind. rewrite save_memory_run.
  destruct (writable (disk w)); [|reflexivity].
  destruct (json_encodable _); reflexivity.
Qed.

(** When [save_to_memory] answers [True], the name and the company were
    not blank, the file could be written, and it now holds the old list
    with the new record at the end. *)
Lemma save_to_memory_true (E : Env)
      (name role linkedin company website industry summary : pystr)
      (news_links : option (list json)) (w w1 : World) :
  Main2.save_to_memory E name role linkedin company website industry
                       summary news_links w = (Ok true, w1) ->
  blank name = false /\ blank company = false /\ writable (disk w) = true
  /\ readable (disk w1) = readable (disk w)
  /\ file (disk w1)
     = Some (Json (JArr
          (stored_contacts w
           ++ [Main2.new_entry E name role linkedin company website industry
                               summary news_links]))).
Proof.
  rewrite save_to_memory_run, save_memory_run.
  destruct (blank name); simpl; [discriminate|].
  destruct (blank company); simpl; [discriminate|].
  destruct (load_failure w); [discriminate|].
  destruct (writable (disk w)); [|discriminate].
  destruct (forallb json_encodable _); [|discriminate].
  intros H. inversion H; subst w1. simpl. auto.
Qed.

(** The write of the GUI: the list is written; or the file cannot be
    opened, and [OSError] is raised; or the list holds a surrogate, and
    [UnicodeEncodeError] is raised over a file left unparseable. *)
Lemma in_world_dump (data : json) (g : App2.Gui) :
  App2.in_world (open_and_dump data) g
  = let w := App2.world g in
    let after d :=
      {| App2.current_contacts := App2.current_contacts g;
         App2.dialogs := App2.dialogs g;
         App2.world := {| disk := d; stdin := stdin w;
                          trace := trace w ++ [EvSave data] |} |} in
    if writable (disk w)
    then
      if json_encodable data
      then (Ok tt, after {| file := Some (Json data);
                            readable := readable (disk w);
                            writable := writable (disk w) |})
      else (Raise (UnicodeEncodeError (lit "surrogates not allowed")),
            after {| file := Some Garbage;
                     readable := readable (disk w);
                     writable := writable (disk w) |})
    else (Raise (OSError (lit "Permission denied")), after (disk w)).
Proof.
  destruct g as [contacts shown [[content can_read [|]] lines events]];
    unfold App2.in_world, open_and_dump; run; [|reflexivity].
  destruct (json_encodable data); reflexivity.
Qed.

(** The GUI's [save_contact_to_memory] validates nothing: it appends the
    record it builds from the fields as they are, and writes the list. *)
Lemma save_contact_to_memory_appends (E : Env) (contact_info : ContactInfo)
      (summary : pystr) (news_links : list json) (g : App2.Gui) :
  exists g',
    App2.save_contact_to_memory E contact_info summary news_links g
    = (Ok tt, g')
    /\ App2.current_contacts g'
       = App2.current_contacts g
         ++ [make_entry E (ci_name contact_info) (ci_role contact_info)
                        (ci_linkedin contact_info) (ci_company contact_info)
                        (ci_website contact_info) (ci_industry contact_info)
                        summary news_links]
    /\ App2.dialogs g' = App2.dialogs g
    /\ (writable (disk (App2.world g)) = true ->
        json_encodable (JArr (App2.current_contacts g')) = true ->
        file (disk (App2.world g'))
        = Some (Json (JArr (App2.current_contacts g')))).
Proof.
  destruct g as [contacts shown [[content can_read can_write] lines events]].
  unfold App2.save_contact_to_memory.
  unfold try_except, bind at 1 2, App2.get_contacts, App2.set_contacts. simpl.
  rewrite in_world_dump. simpl.
  destruct can_write; simpl.
  - destruct (forallb json_encodable _) eqn:He; simpl;
      eexists; (split; [reflexivity|]); simpl;
      repeat split; try reflexivity; intros _ H; congruence.
  - eexists. split; [reflexivity|]. simpl.
    repeat split; try reflexivity. discriminate.
Qed.

(** C2 (as amended).  The console's [save_to_memory] does validate: with
    a blank name or company it answers [False] and leaves the store and
    the rest of the world untouched.  Only the GUI's
    [save_contact_to_memory] stores the record with the blank field. *)
Theorem blank_name_or_company_at_persistence (E : Env)
        (contact_info : ContactInfo) (summary : pystr)
        (news_links : list json) (w : World) (g : App2.Gui) :
  blank (ci_name contact_info) = true
  \/ blank (ci_company contact_info) = true ->
  Main2.save_to_memory E
    (ci_name contact_info) (ci_role contact_info) (ci_linkedin contact_info)
    (ci_company contact_info) (ci_website contact_info)
    (ci_industry contact_info) summary (Some news_links) w
  = (Ok false, w)
  /\ exists g',
      App2.save_contact_to_memory E contact_info summary news_links g
      = (Ok tt, g')
      /\ App2.current_contacts g'
         = App2.current_contacts g
           ++ [make_entry E (ci_name contact_info) (ci_role contact_info)
                          (ci_linkedin contact_info) (ci_company contact_info)
                          (ci_website contact_info) (ci_industry contact_info)
                          summary news_links].
Proof.
  intros H. split.
  - rewrite save_to_memory_run.
    destruct H as [-> | ->]; [|rewrite orb_true_r]; reflexivity.
  - destruct (save_contact_to_memory_appends E contact_info summary
                                            news_links g) as (g' & H1 & H2 & _).
    exists g'. auto.
Qed.

Lemma blank_name_or_company_at_persistence_witness :
  let nameless :=
    {| ci_name := lit "  "; ci_role := []; ci_linkedin := [];
       ci_company := lit "Acme"; ci_website := []; ci_industry := [] |} in
  let w := Sample.world (Sample.disk_with [Sample.alice]) [] in
  Main2.save_to_memory Sample.env_ok (lit "  ") [] [] (lit "Acme") [] []
                       (lit "A brief.") (Some []) w
  = (Ok false, w)
  /\ exists g',
      App2.save_contact_to_memory Sample.env_ok nameless (lit "A brief.") []
        (Sample.gui [Sample.alice] (Sample.disk_with [Sample.alice]))
      = (Ok tt, g')
      /\ App2.current_contacts g'
         = [Sample.alice]
           ++ [make_entry Sample.env_ok (lit "  ") [] [] (lit "Acme") [] []
                          (lit "A brief.") []].
Proof.
  intros nameless w.
  apply (blank_name_or_company_at_persistence Sample.env_ok nameless).
  left. reflexivity.
Defined.

(** C2 as stated fails on the console's [save_to_memory]: given a blank
    name it answers [False], and the store still holds what it held. *)
Lemma main2_save_to_memory_blank_name_not_appended :
  let w := Sample.world (Sample.disk_with [Sample.alice]) [] in
  Main2.save_to_memory Sample.env_ok (lit "  ") [] [] (lit "Acme") [] []
                       (lit "A brief.") (Some []) w
  = (Ok false, w)
  /\ stored_contacts w = [Sample.alice].
Proof. split; reflexivity. Qed.

(** C7 (as amended).  When [save_to_memory] answers [True] and the store
    file can be read, [load_memory] then returns the list it held before
    with the new record at the end. *)
Theorem append_then_load (E : Env)
        (name role linkedin company website industry summary : pystr)
        (news_links : option (list json)) (w w1 : World) :
  Main2.save_to_memory E name role linkedin company website industry
                       summary news_links w = (Ok true, w1) ->
  readable (disk w) = true ->
  Main2.load_memory w1
  = (Ok (stored_contacts w
         ++ [Main2.new_entry E name role linkedin company website industry
                             summary news_links]), w1)
  /\ append_then_load_ends_with_record E w name role linkedin company website
                                       industry summary news_links.
Proof.
  intros Hs Hr.
  pose proof (save_to_memory_true _ _ _ _ _ _ _ _ _ _ _ Hs)
    as (_ & _ & _ & Hr1 & Hf).
  assert (Hl : Main2.load_memory w1
               = (Ok (stored_contacts w
                      ++ [Main2.new_entry E name role linkedin company website
                                          industry summary news_links]), w1)).
  { rewrite load_memory_run. unfold load_failure, stored_contacts at 1.
    rewrite Hf, Hr1, Hr. reflexivity. }
  split; [exact Hl|].
  exists true, w1. eexists. exists w1.
  split; [exact Hs|]. split; [exact Hl|].
  apply last_last.
Qed.

Lemma append_then_load_witness :
  let w := Sample.world (Sample.disk_with [Sample.alice]) [] in
  append_then_load_ends_with_record Sample.env_ok w
    (lit " Bob ") [] [] (lit "Acme") [] [] (lit "A brief.") None.
Proof.
  intros w.
  refine (proj2 (append_then_load Sample.env_ok
                   (lit " Bob ") [] [] (lit "Acme") [] [] (lit "A brief.") None
                   w (snd (Main2.save_to_memory Sample.env_ok
                             (lit " Bob ") [] [] (lit "Acme") [] []
                             (lit "A brief.") None w)) _ _));
    reflexivity.
Defined.

(** C7 as stated fails: on a store file that cannot be written, and for
    a record with a blank name, [save_to_memory] answers [False] and
    [load_memory] returns the old list. *)
Lemma append_then_load_fails :
  ~ append_then_load_ends_with_record Sample.env_ok
      (Sample.world (Sample.read_only [Sample.alice]) [])
      (lit "Bob") [] [] (lit "Acme") [] [] (lit "A brief.") None
  /\ ~ append_then_load_ends_with_record Sample.env_ok
         (Sample.world (Sample.disk_with [Sample.alice]) [])
         (lit "  ") [] [] (lit "Acme") [] [] (lit "A brief.") None.
Proof.
  split; intros (saved & w1 & memory & w2 & Hs & Hl & Hlast);
    rewrite save_to_memory_run in Hs; vm_compute in Hs;
    inversion Hs; subst saved w1; clear Hs;
    rewrite load_memory_run in Hl; vm_compute in Hl;
    inversion Hl; subst memory w2; clear Hl;
    vm_compute in Hlast; discriminate Hlast.
Qed.

(** [sanitize_input] strips, then keeps at most 500 characters. *)
Lemma sanitize_input_spec (text : pystr) :
  Main2.sanitize_input text = slice_to 500 (strip text)
  /\ (List.length (Main2.sanitize_input text) <= 500)%nat.
Proof.
  assert (H : Main2.sanitize_input text = slice_to 500 (strip text)).
  { unfold Main2.sanitize_input. destruct text; reflexivity. }
  split; [exact H|]. rewrite H. apply slice_to_length.
Qed.

(** C10.  In every record [save_to_memory] persists, the name, role,
    linkedin, company, website and industry are the given strings
    stripped and cut to at most 500 characters, while the summary and the
    news links are the given ones, whatever their length. *)
Theorem persisted_record_fields (E : Env)
        (name role linkedin company website industry summary : pystr)
        (news_links : list json) (w w1 : World) :
  Main2.save_to_memory E name role linkedin company website industry
                       summary (Some news_links) w = (Ok true, w1) ->
  exists old kv,
    file (disk w1) = Some (Json (JArr (old ++ [JObj kv])))
    /\ (forall key text,
          In (key, text)
             [(lit "name", name); (lit "role", role);
              (lit "linkedin", linkedin); (lit "company", company);
              (lit "website", website); (lit "industry", industry)] ->
          dict_get kv key JNull = JStr (slice_to 500 (strip text))
          /\ (List.length (slice_to 500 (strip text)) <= 500)%nat)
    /\ dict_get kv (lit "summary") JNull = JStr summary
    /\ dict_get kv (lit "news_links") JNull = JArr news_links.
Proof.
  intros Hs.
  apply save_to_memory_true in Hs as (_ & _ & _ & _ & Hf).
  exists (stored_contacts w). eexists. split; [exact Hf|].
  split; [|split; reflexivity].
  intros key text Hin. split; [|apply slice_to_length].
  simpl in Hin.
  repeat (destruct Hin as [Hin|Hin];
          [inversion Hin; subst key text;
           rewrite <- (proj1 (sanitize_input_spec _)); reflexivity|]).
  contradiction.
Qed.

Lemma persisted_record_fields_witness :
  let w := Sample.world (Sample.disk_with [Sample.alice]) [] in
  let long_summary := repeat 120 (3 * 1000)%nat in
  exists old kv,
    file (disk (snd (Main2.save_to_memory Sample.env_ok
                       (lit " Bob ") [] [] (repeat 65 (2 * 300)%nat) [] []
                       long_summary (Some [JStr (lit "https://news.example/1")])
                       w)))
    = Some (Json (JArr (old ++ [JObj kv])))
    /\ (forall key text,
          In (key, text)
             [(lit "name", lit " Bob "); (lit "role", []);
              (lit "linkedin", []); (lit "company", repeat 65 (2 * 300)%nat);
              (lit "website", []); (lit "industry", [])] ->
          dict_get kv key JNull = JStr (slice_to 500 (strip text))
          /\ (List.length (slice_to 500 (strip text)) <= 500)%nat)
    /\ dict_get kv (lit "summary") JNull = JStr long_summary
    /\ dict_get kv (lit "news_links") JNull
       = JArr [JStr (lit "https://news.example/1")].
Proof.
  intros w long_summary.
  apply (persisted_record_fields Sample.env_ok
           (lit " Bob ") [] [] (repeat 65 (2 * 300)%nat) [] []
           long_summary [JStr (lit "https://news.example/1")] w).
  vm_compute. reflexivity.
Defined.

Example persisted_record_fields_example :
  let w := Sample.world (Sample.disk_with []) [] in
  let w1 := snd (Main2.save_to_memory Sample.env_ok
                   (lit " Bob ") [] [] (repeat 65 (2 * 300)%nat) [] []
                   (repeat 120 (3 * 1000)%nat) None w) in
  match stored_contacts w1 with
  | [JObj kv] =>
      dict_get kv (lit "name") JNull = JStr (lit "Bob")
      /\ dict_get kv (lit "company") JNull = JStr (repeat 65 500)
      /\ dict_get kv (lit "summary") JNull = JStr (repeat 120 (3 * 1000)%nat)
      /\ dict_get kv (lit "news_links") JNull = JArr []
  | _ => False
  end.
Proof. vm_compute. repeat split. Qed.

(** ** The pipeline *)

Lemma keeps_disk_ret {A} (a : A) : keeps_disk (ret a).
Proof. intros w r w' H. inversion H. reflexivity. Qed.

Lemma keeps_disk_raise {A} (e : exn) : keeps_disk (@raise World A e).
Proof. intros w r w' H. inversion H. reflexivity. Qed.

Lemma keeps_disk_call {A} (x : result A) : keeps_disk (call x).
Proof. intros w r w' H. inversion H. reflexivity. Qed.

Lemma keeps_disk_log (ev : Event) : keeps_disk (log ev).
Proof. intros w r w' H. inversion H. reflexivity. Qed.

Lemma keeps_disk_bind {A B} (m : M World A) (k : A -> M World B) :
  keeps_disk m -> (forall a, keeps_disk (k a)) -> keeps_disk (bind m k).
Proof.
  intros Hm Hk w r w' H. unfold bind in H.
  destruct (m w) as [[a|e] w1] eqn:Hmw.
  - rewrite (Hk a _ _ _ H). exact (Hm _ _ _ Hmw).
  - inversion H; subst. exact (Hm _ _ _ Hmw).
Qed.

Lemma keeps_disk_try_except {A} (m : M World A) (h : exn -> option (M World A)) :
  keeps_disk m -> (forall e k, h e = Some k -> keeps_disk k) ->
  keeps_disk (try_except m h).
Proof.
  intros Hm Hh w r w' H. unfold try_except in H.
  destruct (m w) as [[a|e] w1] eqn:Hmw.
  - inversion H; subst. exact (Hm _ _ _ Hmw).
  - destruct (h e) as [k|] eqn:He.
    + rewrite (Hh e k He _ _ _ H). exact (Hm _ _ _ Hmw).
    + inversion H; subst. exact (Hm _ _ _ Hmw).
Qed.

Create HintDb disk.
#[local] Hint Resolve keeps_disk_ret keeps_disk_raise keeps_disk_call
  keeps_disk_log : disk.

Ltac keeps_disk_step :=
  first [ solve [auto with disk]
        | apply keeps_disk_bind; [|intros ?]
        | apply keeps_disk_try_except; [|intros ? ? ?]
        | match goal with
          | H : Some _ = Some _ |- _ => inversion H; clear H; subst
          | H : None = Some _ |- _ => discriminate H
          | H : (if ?c then _ else _) = Some _ |- _ => destruct c
          | |- keeps_disk (match ?x with _ => _ end) => destruct x
          end ].

Ltac keeps_disk_auto := repeat keeps_disk_step.

Lemma keeps_disk_is_valid_url (E : Env) (url : pystr) :
  keeps_disk (is_valid_url E url).
Proof. unfold is_valid_url. keeps_disk_auto. Qed.

Lemma keeps_disk_requests_get (E : Env) (r : Request) :
  keeps_disk (requests_get E r).
Proof. unfold requests_get. keeps_disk_auto. Qed.

Lemma keeps_disk_raise_for_status (resp : Response) :
  keeps_disk (raise_for_status resp).
Proof. unfold raise_for_status. keeps_disk_auto. Qed.

Lemma keeps_disk_py_get (v : json) (key : pystr) (default : json) :
  keeps_disk (py_get v key default).
Proof. unfold py_get. keeps_disk_auto. Qed.

Lemma keeps_disk_response_json (resp : Response) :
  keeps_disk (response_json resp).
Proof. unfold response_json. keeps_disk_auto. Qed.

#[local] Hint Resolve keeps_disk_is_valid_url keeps_disk_requests_get
  keeps_disk_raise_for_status keeps_disk_py_get keeps_disk_response_json
  : disk.

Lemma keeps_disk_scrape_website (E : Env) (url : pystr) :
  keeps_disk (scrape_website E url).
Proof. unfold scrape_website. keeps_disk_auto. Qed.

Lemma keeps_disk_request_articles (E : Env) (req : Request) :
  keeps_disk (request_articles E req).
Proof. unfold request_articles. keeps_disk_auto. Qed.

Lemma keeps_disk_fetch_news (E : Env) (api_key : option pystr)
      (query : pystr) (num_articles : Z) :
  keeps_disk (Main2.fetch_news E api_key query num_articles).
Proof.
  pose proof (keeps_disk_request_articles E) as K.
  unfold Main2.fetch_news. keeps_disk_auto.
Qed.

#[local] Hint Resolve keeps_disk_scrape_website keeps_disk_fetch_news : disk.

(** The website step never raises and leaves the disk alone. *)
Lemma scrape_step_total (E : Env) (contact_info : ContactInfo) (w : World) :
  exists all_content w',
    Main2.scrape_step E contact_info w = (Ok all_content, w')
    /\ disk w' = disk w.
Proof.
  assert (K : keeps_disk (Main2.scrape_step E contact_info)).
  { unfold Main2.scrape_step. keeps_disk_auto. }
  assert (T : exists all_content w',
             Main2.scrape_step E contact_info w = (Ok all_content, w')).
  { unfold Main2.scrape_step. destruct (str_truthy _).
    - apply (try_except_total _ (fun _ => [])).
    - exists [], w. reflexivity. }
  destruct T as (all_content & w' & H).
  exists all_content, w'. split; [exact H | exact (K _ _ _ H)].
Qed.

(** The news step never raises and leaves the disk alone. *)
Lemma news_step_total (E : Env) (contact_info : ContactInfo)
      (all_content : list pystr) (w : World) :
  exists r w',
    Main2.news_step E contact_info all_content w = (Ok r, w')
    /\ disk w' = disk w.
Proof.
  assert (K : keeps_disk (Main2.news_step E contact_info all_content)).
  { unfold Main2.news_step. keeps_disk_auto. }
  assert (T : exists r w',
             Main2.news_step E contact_info all_content w = (Ok r, w')).
  { unfold Main2.news_step. destruct (str_truthy _).
    - apply (try_except_total _ (fun _ => (all_content, []))).
    - eexists; eexists; reflexivity. }
  destruct T as (r & w' & H).
  exists r, w'. split; [exact H | exact (K _ _ _ H)].
Qed.

(** What [input_loop] returns was accepted, and is a stripped line. *)
Lemma input_loop_accepts (accept : pystr -> result bool)
      (lines rest : list pystr) (v : pystr) :
  Main2.input_loop accept lines = (Ok v, rest) ->
  accept v = Ok true /\ exists l, v = strip l.
Proof.
  induction lines as [|l lines IH]; simpl; [discriminate|].
  destruct (accept (strip l)) as [[|]|e] eqn:Ha.
  - intros H. inversion H; subst. split; [exact Ha|]. exists l. reflexivity.
  - exact IH.
  - discriminate.
Qed.

Lemma input_until_inv (accept : pystr -> result bool) (w w' : World)
      (v : pystr) :
  Main2.input_until accept w = (Ok v, w') ->
  disk w' = disk w /\ accept v = Ok true /\ exists l, v = strip l.
Proof.
  unfold Main2.input_until.
  destruct (Main2.input_loop accept (stdin w)) as [r rest] eqn:Hl.
  intros H. inversion H; subst. split; [reflexivity|].
  exact (input_loop_accepts _ _ _ _ Hl).
Qed.

(** The contact [get_user_input] returns has a name and a company that
    are not blank; reading it leaves the disk alone. *)
Lemma get_user_input_inv (E : Env) (w w' : World) (contact_info : ContactInfo) :
  Main2.get_user_input E w = (Ok contact_info, w') ->
  disk w' = disk w
  /\ blank (ci_name contact_info) = false
  /\ blank (ci_company contact_info) = false.
Proof.
  unfold Main2.get_user_input. intros H.
  apply bind_inv in H as (name & w1 & H1 & H).
  apply bind_inv in H as (company & w2 & H2 & H).
  apply bind_inv in H as (role & w3 & H3 & H).
  apply bind_inv in H as (linkedin & w4 & H4 & H).
  apply bind_inv in H as (website & w5 & H5 & H).
  apply bind_inv in H as (industry & w6 & H6 & H).
  inversion H; subst; clear H. simpl.
  apply input_until_inv in H1 as (D1 & A1 & l1 & ->).
  apply input_until_inv in H2 as (D2 & A2 & l2 & ->).
  apply input_until_inv in H3 as (D3 & _).
  apply input_until_inv in H4 as (D4 & _).
  apply input_until_inv in H5 as (D5 & _).
  apply input_until_inv in H6 as (D6 & _).
  split; [congruence|].
  split; apply strip_truthy_iff; rewrite strip_idem; congruence.
Qed.

(** Whatever contact the user enters, and whatever the website, the
    news service and the model do, [add_new_contact] reaches the store
    with a summary that is the model's text, the no-content sentinel or
    the failure text.  There it ends as the read and the write of the
    store end: with the exception of the read that [load_memory] does not
    catch, or else as [save_memory] of the old list and the new record,
    whose answer is dropped. *)
Lemma add_new_contact_outcome (E : Env) (w w0 : World)
      (contact_info : ContactInfo) :
  Main2.get_user_input E w = (Ok contact_info, w0) ->
  exists summary news_links w3,
    summary_shape E contact_info summary
    /\ disk w3 = disk w
    /\ let record :=
         Main2.new_entry E
           (ci_name contact_info) (ci_role contact_info)
           (ci_linkedin contact_info) (ci_company contact_info)
           (ci_website contact_info) (ci_industry contact_info)
           summary (Some news_links) in
       Main2.add_new_contact E w
       = match load_failure w with
         | Some e => (Raise e, w3)
         | None =>
             let (saved, w') :=
               Main2.save_memory (stored_contacts w ++ [record]) w3 in
             (match saved with Ok _ => Ok tt | Raise e => Raise e end, w')
         end.
Proof.
  intros Hin.
  destruct (get_user_input_inv _ _ _ _ Hin) as (D0 & Hname & Hcompany).
  destruct (scrape_step_total E contact_info w0) as (c1 & w1 & H1 & D1).
  destruct (news_step_total E contact_info c1 w1)
    as ([all_content news_links] & w2 & H2 & D2).
  destruct (main2_generate_summary_total E
              (match all_content with
               | [] => []
               | _ => join (nl ++ nl) all_content
               end) contact_info w2) as (summary & w3 & H3 & D3 & Hshape).
  assert (D : disk w3 = disk w) by congruence.
  assert (Hstored : stored_contacts w3 = stored_contacts w).
  { unfold stored_contacts. rewrite D. reflexivity. }
  assert (Hload : load_failure w3 = load_failure w).
  { unfold load_failure. rewrite D. reflexivity. }
  exists summary, news_links, w3.
  split; [exact Hshape|]. split; [exact D|].
  unfold Main2.add_new_contact, Main2.research_and_save.
  rewrite (bind_ok _ _ _ _ _ Hin), (bind_ok _ _ _ _ _ H1),
    (bind_ok _ _ _ _ _ H2), (bind_ok _ _ _ _ _ H3).
  unfold bind at 1.
  rewrite save_to_memory_run, Hname, Hcompany, Hload, Hstored. simpl.
  destruct (load_failure w); [reflexivity|].
  destruct (Main2.save_memory _ w3) as [[saved|e] w']; reflexivity.
Qed.

(** C1 fails on the store.  With a store file whose bytes are not UTF-8,
    [load_memory] lets [UnicodeDecodeError] through, and it leaves
    [add_new_contact] after the research was done.  With a news link
    that holds a lone surrogate (here the sixth, which is not among the
    five shown), [save_memory] lets [UnicodeEncodeError] through, and the
    store file, opened for writing, has lost its content. *)
Theorem add_new_contact_raises_on_store_errors :
  let typed := Sample.jane_typed in
  (exists w',
     Main2.add_new_contact Sample.env_ok (Sample.world Sample.undecodable typed)
     = (Raise (UnicodeDecodeError (lit "'utf-8' codec can't decode byte 0xff")),
        w')
     /\ disk w' = Sample.undecodable
     /\ List.length (filter is_http (trace w')) = 2%nat
     /\ List.length (filter is_generate (trace w')) = 1%nat
     /\ filter is_save (trace w') = [])
  /\ (exists w',
        Main2.add_new_contact Sample.env_surrogate
          (Sample.world (Sample.disk_with [Sample.alice]) typed)
        = (Raise (UnicodeEncodeError (lit "surrogates not allowed")), w')
        /\ file (disk w') = Some Garbage
        /\ stored_contacts w' = []).
Proof.
  split; eexists; (split; [vm_compute; reflexivity|]);
    repeat split; reflexivity.
Qed.

(** The scenario of the specification: the website times out, the news
    service returns two articles, the model fails.  The record has the
    failure text as summary and the two links, and is the one record
    added to the store. *)
Example add_new_contact_degraded :
  let w := Sample.world (Sample.disk_with [Sample.alice]) Sample.jane_typed in
  let '(r, w') := Main2.add_new_contact Sample.env_degraded w in
  r = Ok tt
  /\ stored_contacts w'
     = [Sample.alice;
        make_entry Sample.env_degraded
          (lit "Jane Doe") [] [] (lit "Acme")
          (lit "https://acme.example/about") (lit "renewable energy")
          (Main2.fallback_summary Sample.jane)
          [JStr (lit "https://news.example/1");
           JStr (lit "https://news.example/2")]].
Proof. vm_compute. split; reflexivity. Qed.

(** Reading the contact comes before the pipeline: when the console input
    ends before the contact is complete, [input] raises [EOFError] and
    there is no contact to research. *)
Example add_new_contact_end_of_input :
  fst (Main2.add_new_contact Sample.env_ok
         (Sample.world (Sample.disk_with []) [lit "Jane Doe"]))
  = Raise EOFError.
Proof. reflexivity. Qed.

(** ** Deleting a contact (GUI) *)

Lemma json_eq_str_iff (v : json) (s : pystr) :
  json_eq_str v s = true <-> v = JStr s.
Proof.
  destruct v; simpl; try (split; discriminate).
  rewrite str_eqb_eq. split; [intros ->; reflexivity | intros H; inversion H; auto].
Qed.

(** The test of the loop is exact equality of both fields, for a row
    whose cells came back as strings. *)
Lemma contact_matches_iff (contact : json) (contact_name company_name : pystr) :
  App2.contact_matches contact (App2.TkStr contact_name)
                       (App2.TkStr company_name) = Ok true
  <-> is_contact contact_name company_name contact.
Proof.
  unfold App2.contact_matches, is_contact. split.
  - destruct contact as [| | | | |kv]; try discriminate.
    intros H. injection H as H'.
    apply andb_true_iff in H' as [H1 H2].
    apply json_eq_str_iff in H1, H2. exists kv. auto.
  - intros (kv & -> & H1 & H2). rewrite H1, H2. simpl.
    rewrite !str_eqb_refl. reflexivity.
Qed.

Lemma contact_matches_dict (contact : json) (contact_name company_name : pystr) :
  is_dict contact ->
  ~ is_contact contact_name company_name contact ->
  App2.contact_matches contact (App2.TkStr contact_name)
                       (App2.TkStr company_name) = Ok false.
Proof.
  intros [kv ->] Hno.
  destruct (App2.contact_matches (JObj kv) (App2.TkStr contact_name)
                                 (App2.TkStr company_name))
    as [[|]|e] eqn:H; try reflexivity.
  - apply contact_matches_iff in H. contradiction.
  - discriminate H.
Qed.

(** The loop stops at the first record that matches. *)
Lemma find_contact_first (pre post : list json) (c : json)
      (contact_name company_name : pystr) (i : nat) :
  Forall is_dict pre ->
  (forall x, In x pre -> ~ is_contact contact_name company_name x) ->
  is_contact contact_name company_name c ->
  App2.find_contact (pre ++ c :: post) (App2.TkStr contact_name)
                    (App2.TkStr company_name) i
  = Ok (Some (i + List.length pre)%nat).
Proof.
  intros Hd Hno Hc. revert i.
  induction pre as [|x pre IH]; intros i; simpl.
  - apply contact_matches_iff in Hc. rewrite Hc, Nat.add_0_r. reflexivity.
  - inversion Hd; subst.
    rewrite (contact_matches_dict x); auto using in_eq.
    rewrite IH; auto using in_cons.
    rewrite Nat.add_succ_r. reflexivity.
Qed.

Lemma find_contact_none (contacts : list json)
      (contact_name company_name : pystr) (i : nat) :
  Forall is_dict contacts ->
  (forall x, In x contacts -> ~ is_contact contact_name company_name x) ->
  App2.find_contact contacts (App2.TkStr contact_name)
                    (App2.TkStr company_name) i = Ok None.
Proof.
  intros Hd Hno. revert i.
  induction contacts as [|x contacts IH]; intros i; simpl; [reflexivity|].
  inversion Hd; subst.
  rewrite (contact_matches_dict x); auto using in_eq.
  apply IH; auto using in_cons.
Qed.

(** On a list of records the loop does not raise. *)
Lemma find_contact_total (contacts : list json)
      (contact_name company_name : App2.tkvalue) (i : nat) :
  Forall is_dict contacts ->
  exists found,
    App2.find_contact contacts contact_name company_name i = Ok found.
Proof.
  intros Hd. revert i.
  induction Hd as [|x contacts [kv ->] _ IH]; intros i; simpl; eauto.
  destruct (_ && _); eauto.
Qed.

Lemma pop_middle (pre post : list json) (c : json) :
  App2.pop (List.length pre) (pre ++ c :: post) = pre ++ post.
Proof.
  unfold App2.pop.
  rewrite firstn_app, firstn_all, Nat.sub_diag, skipn_app.
  rewrite (skipn_all2 pre) by (simpl; lia).
  replace (S (List.length pre) - List.length pre)%nat with 1%nat by lia.
  simpl. rewrite app_nil_r. reflexivity.
Qed.

(** What a confirmed [delete_selected_contact] does once the loop has
    run: it pops the index found, if any, writes the list, and returns
    [None], whether the write and the refresh of the rows succeed or
    not. *)
Lemma delete_selected_contact_run (E : Env) (py_int : pystr -> option Z)
      (name_cell company_cell : pystr) (g : App2.Gui) (found : option nat) :
  App2.find_contact (App2.current_contacts g)
                    (App2.convert_stringval py_int name_cell)
                    (App2.convert_stringval py_int company_cell) 0
  = Ok found ->
  exists g',
    App2.delete_selected_contact E py_int (Some (name_cell, company_cell))
                                 true g
    = (Ok JNull, g')
    /\ App2.current_contacts g'
       = match found with
         | Some i => App2.pop i (App2.current_contacts g)
         | None => App2.current_contacts g
         end
    /\ trace (App2.world g')
       = trace (App2.world g) ++ [EvSave (JArr (App2.current_contacts g'))]
    /\ (writable (disk (App2.world g)) = true ->
        json_encodable (JArr (App2.current_contacts g')) = true ->
        file (disk (App2.world g'))
        = Some (Json (JArr (App2.current_contacts g'))))
    /\ (writable (disk (App2.world g)) = false ->
        disk (App2.world g') = disk (App2.world g)
        /\ App2.dialogs g'
           = App2.dialogs g
             ++ [App2.AskYesNo
                   (lit "Are you sure you want to delete "
                    ++ App2.tk_str E (App2.convert_stringval py_int name_cell)
                    ++ lit " from "
                    ++ App2.tk_str E
                         (App2.convert_stringval py_int company_cell)
                    ++ lit "?");
                 App2.ShowError
                   (lit "Failed to delete contact: Permission denied")]).
Proof.
  intros Hf.
  destruct g as [contacts shown [[content can_read can_write] lines events]].
  simpl in Hf. unfold App2.delete_selected_contact.
  unfold bind at 1, App2.dialog. simpl.
  unfold bind at 1, App2.get_contacts. simpl.
  unfold bind at 1, call. simpl. rewrite Hf. simpl.
  destruct found as [i|]; unfold bind at 1, App2.set_contacts, ret; simpl;
    unfold bind at 1; simpl;
    unfold bind at 1, try_except, bind at 1; rewrite in_world_dump; simpl;
    (destruct can_write; simpl;
     [ match goal with
       | |- context [forallb json_encodable ?l] =>
           destruct (forallb json_encodable l) eqn:He; simpl;
           [ destruct (App2.populate_contacts_tree l); simpl | ]
       end | ]);
    eexists; (split; [reflexivity|]); simpl;
    repeat split; try reflexivity; try discriminate;
    try (intros; congruence);
    intros; rewrite <- app_assoc; reflexivity.
Qed.

(** C8 (as amended).  For a selected row whose name and company do not
    read as integers, and on a list of records, a confirmed
    [delete_selected_contact] removes the first record whose name and
    company both equal the selected ones, and no other; it leaves the list
    as it is when no record matches; it writes the resulting list to the
    store file; and in both cases it returns [None]. *)
Theorem delete_selected_contact_removes_first_match
        (E : Env) (py_int : pystr -> option Z)
        (contact_name company_name : pystr) (g : App2.Gui) :
  py_int contact_name = None ->
  py_int company_name = None ->
  Forall is_dict (App2.current_contacts g) ->
  exists g',
    App2.delete_selected_contact E py_int (Some (contact_name, company_name))
                                 true g
    = (Ok JNull, g')
    /\ (forall pre c post,
          App2.current_contacts g = pre ++ c :: post ->
          (forall x, In x pre -> ~ is_contact contact_name company_name x) ->
          is_contact contact_name company_name c ->
          App2.current_contacts g' = pre ++ post)
    /\ ((forall x, In x (App2.current_contacts g) ->
                   ~ is_contact contact_name company_name x) ->
        App2.current_contacts g' = App2.current_contacts g)
    /\ trace (App2.world g')
       = trace (App2.world g) ++ [EvSave (JArr (App2.current_contacts g'))]
    /\ (writable (disk (App2.world g)) = true ->
        json_encodable (JArr (App2.current_contacts g')) = true ->
        file (disk (App2.world g'))
        = Some (Json (JArr (App2.current_contacts g')))).
Proof.
  intros Hn Hc Hd.
  destruct (find_contact_total _ (App2.convert_stringval py_int contact_name)
              (App2.convert_stringval py_int company_name) 0%nat Hd)
    as [found Hf].
  destruct (delete_selected_contact_run E _ _ _ _ _ Hf)
    as (g' & Hrun & Hl & Ht & Hw & _).
  unfold App2.convert_stringval in Hf. rewrite Hn, Hc in Hf.
  exists g'. split; [exact Hrun|].
  split; [|split; [|split; [exact Ht | exact Hw]]].
  - intros pre c post Heq Hno Hyes.
    rewrite Heq in Hf, Hd, Hl.
    rewrite find_contact_first in Hf; auto.
    + inversion Hf; subst found. simpl in Hl. rewrite Hl. apply pop_middle.
    + apply Forall_app in Hd. tauto.
  - intros Hno. rewrite find_contact_none in Hf; auto.
    inversion Hf; subst found. exact Hl.
Qed.

Lemma delete_selected_contact_removes_first_match_witness :
  exists g',
    App2.delete_selected_contact Sample.env_ok Sample.digits
      (Some (lit "Alice", lit "Acme")) true
      (Sample.gui [Sample.bob; Sample.alice; Sample.alice]
                  (Sample.disk_with [Sample.bob; Sample.alice; Sample.alice]))
    = (Ok JNull, g')
    /\ App2.current_contacts g' = [Sample.bob; Sample.alice]
    /\ file (disk (App2.world g'))
       = Some (Json (JArr (App2.current_contacts g'))).
Proof.
  destruct (delete_selected_contact_removes_first_match
              Sample.env_ok Sample.digits (lit "Alice") (lit "Acme")
              (Sample.gui [Sample.bob; Sample.alice; Sample.alice]
                 (Sample.disk_with [Sample.bob; Sample.alice; Sample.alice])))
    as (g' & Hrun & Hfirst & _ & _ & Hw).
  - reflexivity.
  - reflexivity.
  - repeat constructor; eexists; reflexivity.
  - assert (Hl : App2.current_contacts g' = [Sample.bob; Sample.alice]).
    { apply (Hfirst [Sample.bob] Sample.alice [Sample.alice]).
      * reflexivity.
      * intros x [<-|[]] (kv & Hkv & Hn & _).
        inversion Hkv; subst kv. discriminate Hn.
      * eexists. split; [reflexivity|]. split; reflexivity. }
    exists g'. split; [exact Hrun|]. split; [exact Hl|].
    apply Hw; [reflexivity|]. rewrite Hl. reflexivity.
Defined.

(** C8 as stated fails on the value returned: the handler returns
    [None], not [True], when it removed the record, and [None] again
    when, called a second time, it finds nothing to remove. *)
Lemma delete_selected_contact_returns_none :
  let g := Sample.gui [Sample.alice; Sample.bob]
                      (Sample.disk_with [Sample.alice; Sample.bob]) in
  let '(r1, g1) :=
    App2.delete_selected_contact Sample.env_ok Sample.digits
      (Some (lit "Alice", lit "Acme")) true g in
  let '(r2, g2) :=
    App2.delete_selected_contact Sample.env_ok Sample.digits
      (Some (lit "Alice", lit "Acme")) true g1 in
  r1 = Ok JNull /\ r1 <> Ok (JBool true)
  /\ App2.current_contacts g1 = [Sample.bob]
  /\ r2 = Ok JNull /\ r2 <> Ok (JBool false)
  /\ App2.current_contacts g2 = [Sample.bob].
Proof. vm_compute. repeat split; discriminate. Qed.

(** The comparison is case-sensitive, and an element that is not a
    record makes the loop raise. *)
Example delete_selected_contact_examples :
  App2.current_contacts
    (snd (App2.delete_selected_contact Sample.env_ok Sample.digits
            (Some (lit "alice", lit "Acme")) true
            (Sample.gui [Sample.alice] (Sample.disk_with [Sample.alice]))))
  = [Sample.alice]
  /\ fst (App2.delete_selected_contact Sample.env_ok Sample.digits
            (Some (lit "Alice", lit "Acme")) true
            (Sample.gui [JNull; Sample.alice] (Sample.disk_with [])))
     = Raise (AttributeError (lit "object has no attribute 'get'")).
Proof. split; reflexivity. Qed.

(** A cell that reads as an integer comes back from the row as an [int],
    which equals no string: the record whose name is the string [42] is
    not removed, while one whose name is the number is. *)
Example delete_selected_contact_numeric_name :
  let named v := JObj [(lit "name", v); (lit "company", JStr (lit "Acme"))] in
  let after l :=
    App2.current_contacts
      (snd (App2.delete_selected_contact Sample.env_ok Sample.digits
              (Some (lit "42", lit "Acme")) true
              (Sample.gui l (Sample.disk_with l)))) in
  after [named (JStr (lit "42"))] = [named (JStr (lit "42"))]
  /\ after [named (JNum 42)] = [].
Proof. split; reflexivity. Qed.

(** * Further properties *)

(** ** Stripping and sanitizing *)

Lemma lstrip_suffix (s : pystr) : exists t, s = t ++ lstrip s.
Proof.
  induction s as [|c s [t IH]]; simpl.
  - exists []. reflexivity.
  - destruct (isspace c).
    + exists (c :: t). simpl. rewrite <- IH. reflexivity.
    + exists []. reflexivity.
Qed.

Lemma rstrip_prefix (s : pystr) : exists t, s = rstrip s ++ t.
Proof.
  rewrite rstrip_rev. destruct (lstrip_suffix (rev s)) as [t H].
  exists (rev t).
  rewrite <- rev_app_distr, <- H, rev_involutive. reflexivity.
Qed.

Lemma lstrip_app (s t : pystr) :
  lstrip (s ++ t) = if blank s then lstrip t else lstrip s ++ t.
Proof.
  induction s as [|c s IH]; simpl; [reflexivity|].
  destruct (isspace c); simpl; [exact IH | reflexivity].
Qed.

Lemma rstrip_app_blank (s t : pystr) :
  blank t = true -> rstrip (s ++ t) = rstrip s.
Proof.
  intros Ht. rewrite !rstrip_rev, rev_app_distr, lstrip_app, blank_rev, Ht.
  reflexivity.
Qed.

(** Blank text around a string does not change what [strip] returns. *)
Lemma strip_padding (a s b : pystr) :
  blank a = true -> blank b = true -> strip (a ++ s ++ b) = strip s.
Proof.
  intros Ha Hb. unfold strip.
  rewrite lstrip_app, Ha, lstrip_app.
  destruct (blank s) eqn:Hs.
  - apply lstrip_nil_iff in Hb. rewrite Hb.
    apply lstrip_nil_iff in Hs. rewrite Hs. reflexivity.
  - apply rstrip_app_blank, Hb.
Qed.

(** What [strip] returns neither starts nor ends with whitespace. *)
Lemma strip_ends (s : pystr) :
  lstrip (strip s) = strip s /\ rstrip (strip s) = strip s.
Proof.
  split.
  - apply lstrip_fixed. unfold strip. apply rstrip_head, lstrip_head.
  - unfold strip. apply rstrip_idem.
Qed.

Lemma firstn_head (n : nat) (s : pystr) :
  match s with [] => True | c :: _ => isspace c = false end ->
  match firstn n s with [] => True | c :: _ => isspace c = false end.
Proof. destruct n, s; simpl; auto. Qed.

Lemma blank_firstn_succ (n : nat) (s : pystr) :
  match s with [] => True | c :: _ => isspace c = false end ->
  blank (firstn (S n) s) = blank s.
Proof.
  destruct s as [|c s]; simpl; [reflexivity|]. intros ->. reflexivity.
Qed.

Lemma strip_head (s : pystr) :
  match strip s with [] => True | c :: _ => isspace c = false end.
Proof. unfold strip. apply rstrip_head, lstrip_head. Qed.

Lemma sanitize_input_blank (text : pystr) :
  blank (Main2.sanitize_input text) = blank text.
Proof.
  destruct (sanitize_input_spec text) as [-> _].
  unfold slice_to. rewrite blank_firstn_succ by apply strip_head.
  destruct (blank text) eqn:Hb.
  - apply strip_nil_iff in Hb. rewrite Hb. reflexivity.
  - destruct (blank (strip text)) eqn:Hbs; [|reflexivity].
    apply strip_nil_iff in Hbs. rewrite strip_idem in Hbs.
    apply strip_nil_iff in Hbs. congruence.
Qed.

(** X1.  [sanitize_input] never returns a string that starts with
    whitespace; it loses nothing but the surrounding whitespace of a text
    whose stripped form has at most 500 characters, and is then
    idempotent; and it maps a text to a blank string only if the text was
    blank. *)
Theorem sanitize_input_properties (text : pystr) :
  lstrip (Main2.sanitize_input text) = Main2.sanitize_input text
  /\ blank (Main2.sanitize_input text) = blank text
  /\ ((List.length (strip text) <= 500)%nat ->
      Main2.sanitize_input text = strip text
      /\ Main2.sanitize_input (Main2.sanitize_input text)
         = Main2.sanitize_input text).
Proof.
  destruct (sanitize_input_spec text) as [Hs _].
  split; [|split].
  - rewrite Hs. apply lstrip_fixed. unfold slice_to.
    apply firstn_head, strip_head.
  - apply sanitize_input_blank.
  - intros Hlen.
    assert (H1 : Main2.sanitize_input text = strip text).
    { rewrite Hs. unfold slice_to. apply firstn_all2, Hlen. }
    split; [exact H1|].
    rewrite H1. destruct (sanitize_input_spec (strip text)) as [-> _].
    rewrite strip_idem. unfold slice_to. apply firstn_all2, Hlen.
Qed.

Lemma sanitize_input_properties_witness :
  Main2.sanitize_input (lit "  Jane Doe ") = lit "Jane Doe"
  /\ Main2.sanitize_input (Main2.sanitize_input (lit "  Jane Doe "))
     = Main2.sanitize_input (lit "  Jane Doe ").
Proof.
  destruct (sanitize_input_properties (lit "  Jane Doe ")) as (_ & _ & H).
  apply H. apply Nat.leb_le. vm_compute. reflexivity.
Defined.

(** The cut can leave whitespace at the end, which a second call would
    strip: [sanitize_input] is not idempotent on long texts. *)
Example sanitize_input_cut_on_space :
  let text := repeat 97 499 ++ lit " b" in
  Main2.sanitize_input text = repeat 97 499 ++ lit " "
  /\ Main2.sanitize_input (Main2.sanitize_input text) = repeat 97 499.
Proof. split; vm_compute; reflexivity. Qed.

(** X17.  [is_valid_url] ignores blank text around the URL. *)
Theorem is_valid_url_ignores_padding (E : Env) (S : Type)
        (a url b : pystr) (s : S) :
  blank a = true -> blank b = true ->
  is_valid_url E (a ++ url ++ b) s = is_valid_url E url s.
Proof.
  intros Ha Hb. unfold is_valid_url.
  rewrite (strip_padding a url b Ha Hb). reflexivity.
Qed.

Lemma is_valid_url_ignores_padding_witness :
  is_valid_url Sample.env_ok
    (lit "  " ++ lit "https://acme.example" ++ [9; 10]) tt
  = is_valid_url Sample.env_ok (lit "https://acme.example") tt.
Proof.
  apply (is_valid_url_ignores_padding Sample.env_ok unit
           (lit "  ") (lit "https://acme.example") [9; 10] tt);
    reflexivity.
Defined.

(** ** The extracted text *)

Lemma ws_normal_collapse (b : bool) (s : pystr) :
  ws_normal b (collapse_ws b s) = true.
Proof.
  revert b. induction s as [|c s IH]; intros b; simpl; [reflexivity|].
  destruct (isspace c) eqn:Hc.
  - destruct b; [apply IH|]. simpl. apply IH.
  - simpl. rewrite Hc. apply IH.
Qed.

Lemma ws_normal_prefix (b : bool) (p q : pystr) :
  ws_normal b (p ++ q) = true -> ws_normal b p = true.
Proof.
  revert b. induction p as [|c p IH]; intros b; simpl; [reflexivity|].
  destruct (isspace c).
  - rewrite !andb_true_iff. intros [H1 H2]. split; [exact H1|]. apply IH, H2.
  - apply IH.
Qed.

Lemma ws_normal_lstrip (b : bool) (s : pystr) :
  ws_normal b s = true -> ws_normal true (lstrip s) = true.
Proof.
  revert b. induction s as [|c s IH]; intros b; simpl; [reflexivity|].
  destruct (isspace c) eqn:Hc.
  - rewrite !andb_true_iff. intros [_ H]. exact (IH true H).
  - intros H. simpl. rewrite Hc. exact H.
Qed.

(** X8.  In the text [scrape_website] returns, whitespace is normalized:
    every whitespace character is a plain space, no two are adjacent and
    none comes first. *)
Theorem scrape_website_whitespace_normalized (E : Env) (url : pystr)
        (w w' : World) (content : pystr) :
  scrape_website E url w = (Ok content, w') ->
  ws_normal true content = true.
Proof.
  intros H. apply scrape_website_returns in H as [html ->].
  unfold extract_content, slice_to.
  set (c := re_sub_ws _).
  assert (Hc : ws_normal false c = true) by apply ws_normal_collapse.
  apply (ws_normal_prefix true _ (skipn MAX_CONTENT_LENGTH (strip c))).
  rewrite firstn_skipn. unfold strip.
  destruct (rstrip_prefix (lstrip c)) as [t Ht].
  apply (ws_normal_prefix true _ t). rewrite <- Ht.
  exact (ws_normal_lstrip _ _ Hc).
Qed.

Lemma scrape_website_whitespace_normalized_witness :
  ws_normal true (extract_content Sample.env_ok (lit "<html>")) = true.
Proof.
  apply (scrape_website_whitespace_normalized Sample.env_ok
           (lit "https://acme.example/about")
           (Sample.world (Sample.disk_with []) [])
           (snd (scrape_website Sample.env_ok (lit "https://acme.example/about")
                                (Sample.world (Sample.disk_with []) [])))).
  vm_compute. reflexivity.
Defined.




(** ** The store, further *)

(** X2.  [save_to_memory] keeps the store well named: if every record
    that can be read from the store has a name and a company that are not
    blank, so has every record after the call, whatever it was given and
    whether it saved or not. *)
Theorem save_to_memory_keeps_well_named (E : Env)
        (name role linkedin company website industry summary : pystr)
        (news_links : option (list json)) (w : World) :
  Forall well_named (stored_contacts w) ->
  Forall well_named
    (stored_contacts
       (snd (Main2.save_to_memory E name role linkedin company website
                                  industry summary news_links w))).
Proof.
  intros Hinv. rewrite save_to_memory_run.
  destruct (blank name) eqn:Hn; simpl; [exact Hinv|].
  destruct (blank company) eqn:Hc; simpl; [exact Hinv|].
  destruct (load_failure w); [exact Hinv|].
  rewrite save_memory_run.
  destruct (writable (disk w)); simpl; [|exact Hinv].
  destruct (forallb json_encodable _); [|constructor].
  unfold stored_contacts at 1. simpl.
  destruct (readable (disk w)); [|constructor].
  apply Forall_app. split; [exact Hinv|].
  constructor; [|constructor].
  exists (Main2.sanitize_input name), (Main2.sanitize_input company).
  repeat split.
  - rewrite sanitize_input_blank. exact Hn.
  - rewrite sanitize_input_blank. exact Hc.
Qed.

Lemma save_to_memory_keeps_well_named_witness :
  Forall well_named
    (stored_contacts
       (snd (Main2.save_to_memory Sample.env_ok
               (lit " Bob ") [] [] (lit "Acme") [] [] (lit "A brief.") None
               (Sample.world (Sample.disk_with [Sample.alice]) [])))).
Proof.
  apply (save_to_memory_keeps_well_named Sample.env_ok).
  repeat constructor.
  exists (lit "Alice"), (lit "Acme"). repeat split.
Defined.

Lemma json_encodable_app (l l' : list json) :
  json_encodable (JArr (l ++ l'))
  = json_encodable (JArr l) && json_encodable (JArr l').
Proof. simpl. apply forallb_app. Qed.

Lemma json_encodable_singleton (v : json) :
  json_encodable (JArr [v]) = json_encodable v.
Proof. simpl. apply andb_true_r. Qed.

(** X3.  A store that [load_memory] reads as empty (a missing file, a
    file that cannot be opened, text that is not JSON, a document that is
    not an array) is overwritten: [save_to_memory] of a name and a company
    that are not blank, on a file that can be written and with a record
    free of surrogates, answers [True], and the file then holds the new
    record and nothing of what it held.  (Content on which the read
    raises another exception, as bytes that are not UTF-8, is not among
    these: there [save_to_memory] raises.) *)
Theorem save_to_memory_replaces_unreadable_store (E : Env)
        (name role linkedin company website industry summary : pystr)
        (news_links : option (list json)) (w : World) :
  readable (disk w) = false
  \/ file (disk w) = None
  \/ file (disk w) = Some Garbage
  \/ (exists j, file (disk w) = Some (Json j) /\ forall l, j <> JArr l) ->
  blank name = false -> blank company = false ->
  writable (disk w) = true ->
  json_encodable (Main2.new_entry E name role linkedin company website
                                  industry summary news_links) = true ->
  exists w1,
    Main2.save_to_memory E name role linkedin company website industry
                         summary news_links w = (Ok true, w1)
    /\ file (disk w1)
       = Some (Json (JArr [Main2.new_entry E name role linkedin company
                                           website industry summary
                                           news_links])).
Proof.
  intros Hbad Hn Hc Hw He.
  assert (Hload : load_failure w = None /\ stored_contacts w = []).
  { unfold load_failure, stored_contacts.
    destruct Hbad as [Hr|[Hf|[Hf|(j & Hf & Hj)]]].
    - rewrite Hr. destruct (file (disk w)) as [[|e|[]]|]; auto.
    - rewrite Hf. auto.
    - rewrite Hf. auto.
    - rewrite Hf. destruct j; auto. exfalso. exact (Hj _ eq_refl). }
  destruct Hload as [Hload Hnil].
  rewrite save_to_memory_run, Hn, Hc, Hload, Hnil, save_memory_run, Hw.
  rewrite json_encodable_app, json_encodable_singleton, He.
  eexists. split; reflexivity.
Qed.

Lemma save_to_memory_replaces_unreadable_store_witness :
  let w := {| disk := {| file := Some (Json (JObj [(lit "contacts",
                                                   JArr [Sample.alice])]));
                         readable := true; writable := true |};
              stdin := []; trace := [] |} in
  exists w1,
    Main2.save_to_memory Sample.env_ok
      (lit "Bob") [] [] (lit "Acme") [] [] (lit "A brief.") None w
    = (Ok true, w1)
    /\ file (disk w1)
       = Some (Json (JArr [Main2.new_entry Sample.env_ok
                             (lit "Bob") [] [] (lit "Acme") [] []
                             (lit "A brief.") None])).
Proof.
  intros w.
  apply (save_to_memory_replaces_unreadable_store Sample.env_ok
           (lit "Bob") [] [] (lit "Acme") [] [] (lit "A brief.") None w);
    try reflexivity.
  right. right. right. eexists. split; [reflexivity|].
  intros l H. discriminate H.
Defined.

(** On a store file whose bytes are not UTF-8, [save_to_memory] raises
    and writes nothing. *)
Example save_to_memory_undecodable_store :
  let w := Sample.world Sample.undecodable [] in
  Main2.save_to_memory Sample.env_ok (lit "Bob") [] [] (lit "Acme") [] []
                       (lit "A brief.") None w
  = (Raise (UnicodeDecodeError (lit "'utf-8' codec can't decode byte 0xff")),
     w).
Proof. reflexivity. Qed.

(** X4.  Appends accumulate in order, and nothing is deduplicated: after
    a successful [save_to_memory] on a readable store, a second call with
    a name and a company that are not blank and a record free of
    surrogates succeeds too, and the file holds the old list followed by
    the two records, also when they are the same. *)
Theorem save_to_memory_twice (E : Env)
        (name role linkedin company website industry summary : pystr)
        (news_links : option (list json))
        (name' role' linkedin' company' website' industry' summary' : pystr)
        (news_links' : option (list json)) (w w1 : World) :
  readable (disk w) = true ->
  Main2.save_to_memory E name role linkedin company website industry
                       summary news_links w = (Ok true, w1) ->
  blank name' = false -> blank company' = false ->
  json_encodable (Main2.new_entry E name' role' linkedin' company' website'
                                  industry' summary' news_links') = true ->
  exists w2,
    Main2.save_to_memory E name' role' linkedin' company' website' industry'
                         summary' news_links' w1 = (Ok true, w2)
    /\ file (disk w2)
       = Some (Json (JArr
            (stored_contacts w
             ++ [Main2.new_entry E name role linkedin company website
                                 industry summary news_links;
                 Main2.new_entry E name' role' linkedin' company' website'
                                 industry' summary' news_links']))).
Proof.
  intros Hr Hs Hn Hc He.
  pose proof (save_to_memory_true _ _ _ _ _ _ _ _ _ _ _ Hs)
    as (_ & _ & Hw & Hr1 & Hf).
  rewrite save_to_memory_run, save_memory_run in Hs.
  destruct (blank name || blank company); [discriminate Hs|].
  destruct (load_failure w); [discriminate Hs|].
  rewrite Hw in Hs.
  destruct (json_encodable (JArr (stored_contacts w ++ _))) eqn:He1;
    [|discriminate Hs].
  assert (Hw1 : writable (disk w1) = true).
  { inversion Hs. reflexivity. }
  assert (Hst : stored_contacts w1
                = stored_contacts w
                  ++ [Main2.new_entry E name role linkedin company website
                                      industry summary news_links]).
  { unfold stored_contacts at 1. rewrite Hf, Hr1, Hr. reflexivity. }
  assert (Hl1 : load_failure w1 = None).
  { unfold load_failure. rewrite Hf. reflexivity. }
  assert (He2 : json_encodable
                  (JArr (stored_contacts w1
                         ++ [Main2.new_entry E name' role' linkedin' company'
                               website' industry' summary' news_links']))
                = true).
  { rewrite json_encodable_app, json_encodable_singleton, Hst, He1, He.
    reflexivity. }
  eexists. split.
  - rewrite save_to_memory_run, Hn, Hc, Hl1, save_memory_run, Hw1, He2.
    reflexivity.
  - simpl. rewrite Hst, <- app_assoc. reflexivity.
Qed.

Lemma save_to_memory_twice_witness :
  let w := Sample.world (Sample.disk_with [Sample.alice]) [] in
  let bob := Main2.new_entry Sample.env_ok (lit "Bob") [] [] (lit "Acme")
                             [] [] (lit "A brief.") None in
  exists w2,
    Main2.save_to_memory Sample.env_ok (lit "Bob") [] [] (lit "Acme") [] []
      (lit "A brief.") None
      (snd (Main2.save_to_memory Sample.env_ok (lit "Bob") [] [] (lit "Acme")
              [] [] (lit "A brief.") None w))
    = (Ok true, w2)
    /\ file (disk w2) = Some (Json (JArr ([Sample.alice] ++ [bob; bob]))).
Proof.
  intros w bob.
  apply (save_to_memory_twice Sample.env_ok
           (lit "Bob") [] [] (lit "Acme") [] [] (lit "A brief.") None
           (lit "Bob") [] [] (lit "Acme") [] [] (lit "A brief.") None w);
    reflexivity.
Defined.

(** ** Scraping and news, further *)





(** A URL without a host passes [is_valid_url]; [requests.get] refuses
    it with [InvalidURL] before anything is sent, and [scrape_website]
    raises [RuntimeError].  A URL the library refuses with
    [LocationParseError] (a host name with a label of more than 63
    characters) makes [scrape_website] raise that. *)
Example scrape_website_refused :
  let w := Sample.world (Sample.disk_with []) [] in
  let refuse e :=
    Sample.env (Sample.reply Sample.two_articles) (Rejected e)
               (Ok (lit "A brief.")) (Some (lit "g")) (Some (lit "n")) in
  scrape_website (refuse (RequestsInvalidURL (lit "No host supplied")))
                 (lit "http://:80") w
  = (Raise (RuntimeError (lit "Error fetching website: No host supplied")), w)
  /\ scrape_website (refuse (LocationParseError (lit "label too long")))
                    (lit "http://" ++ repeat 97 64 ++ lit ".example") w
     = (Raise (LocationParseError (lit "label too long")), w).
Proof. split; reflexivity. Qed.

(** What the body of the two [fetch_news] does to the world: one request
    is sent, whatever comes back, unless the library refuses it. *)
Lemma request_articles_world (E : Env) (req : Request) (w w' : World)
      (r : result (list json)) :
  request_articles E req w = (r, w') ->
  w' = w \/ w' = after_event w (EvHttpGet req).
Proof.
  unfold request_articles, requests_get, raise_for_status, response_json,
    py_get, after_event.
  run.
  destruct (http_get E req) as [e|m|m|resp]; simpl;
    try solve [intros H; inversion H; auto].
  destruct ((400 <=? status_code resp) && (status_code resp <? 600)); simpl;
    try solve [intros H; inversion H; auto].
  destruct (body_json resp) as [j|]; simpl;
    try solve [intros H; inversion H; auto].
  destruct j; simpl; try solve [intros H; inversion H; auto].
  destruct (negb _); simpl; try solve [intros H; inversion H; auto].
  destruct (dict_get kv (lit "articles") (JArr []));
    intros H; inversion H; auto.
Qed.

Lemma main2_fetch_news_world (E : Env) (api_key : option pystr)
      (query : pystr) (num_articles : Z) (w w' : World)
      (r : result (list json)) :
  Main2.fetch_news E api_key query num_articles w = (r, w') ->
  w' = w
  \/ w' = after_event w
            (EvHttpGet (news_request api_key (slice_to 500 (strip query))
                                     num_articles)).
Proof.
  unfold Main2.fetch_news.
  rewrite (proj1 (sanitize_input_spec query)).
  destruct (negb _); [intros H; inversion H; auto|].
  unfold try_except.
  destruct (request_articles E _ w) as [[l|e] w1] eqn:Hreq;
    apply request_articles_world in Hreq.
  - intros H; inversion H; subst; auto.
  - destruct (is_Timeout e); [intros H; inversion H; subst; auto|].
    destruct (is_RequestException e); intros H; inversion H; subst; auto.
Qed.

Lemma app2_fetch_news_world (E : Env) (api_key : option pystr)
      (query : pystr) (num_articles : Z) (w w' : World)
      (r : result (list json)) :
  App2.fetch_news E api_key query num_articles w = (r, w') ->
  w' = w
  \/ w' = after_event w
            (EvHttpGet (news_request api_key (slice_to 500 (strip query))
                                     num_articles)).
Proof.
  unfold App2.fetch_news.
  destruct (_ || _); [intros H; inversion H; auto|].
  unfold try_except.
  destruct (request_articles E _ w) as [[l|e] w1] eqn:Hreq;
    apply request_articles_world in Hreq;
    intros H; inversion H; subst; auto.
Qed.

(** X10.  Either [fetch_news] sends at most one request: none, or one to
    the news service whose query is the given one stripped and cut to at
    most 500 characters, with the key, the page size, the language [en]
    and the order [publishedAt]; and it changes nothing else. *)
Theorem fetch_news_one_request (E : Env) (api_key : option pystr)
        (query : pystr) (num_articles : Z) (w : World) :
  let sent :=
    after_event w
      (EvHttpGet (news_request api_key (slice_to 500 (strip query))
                               num_articles)) in
  (List.length (slice_to 500 (strip query)) <= 500)%nat
  /\ (forall r w', Main2.fetch_news E api_key query num_articles w = (r, w') ->
                   w' = w \/ w' = sent)
  /\ (forall r w', App2.fetch_news E api_key query num_articles w = (r, w') ->
                   w' = w \/ w' = sent).
Proof.
  intros sent. split; [apply slice_to_length|]. split; intros r w' H.
  - exact (main2_fetch_news_world _ _ _ _ _ _ _ H).
  - exact (app2_fetch_news_world _ _ _ _ _ _ _ H).
Qed.

Lemma fetch_news_one_request_witness :
  let w := Sample.world (Sample.disk_with []) [] in
  let q := lit "  " ++ repeat 97 600 ++ lit " " in
  snd (Main2.fetch_news Sample.env_ok (Some (lit "n")) q 5 w) = w
  \/ snd (Main2.fetch_news Sample.env_ok (Some (lit "n")) q 5 w)
     = after_event w
         (EvHttpGet (news_request (Some (lit "n")) (slice_to 500 (strip q)) 5)).
Proof.
  intros w q.
  destruct (fetch_news_one_request Sample.env_ok (Some (lit "n")) q 5 w)
    as (_ & H & _).
  apply (H (fst (Main2.fetch_news Sample.env_ok (Some (lit "n")) q 5 w))).
  vm_compute. reflexivity.
Defined.

Example fetch_news_one_request_long_query :
  let w := Sample.world (Sample.disk_with []) [] in
  trace (snd (Main2.fetch_news Sample.env_ok (Some (lit "n"))
                (lit "  " ++ repeat 97 600 ++ lit " ") 5 w))
  = [EvHttpGet (news_request (Some (lit "n")) (repeat 97 500) 5)].
Proof. vm_compute. reflexivity. Qed.

(** X9.  The two [fetch_news] agree wherever the console's returns: with
    a key that is configured, what the console's [fetch_news] returns, and
    the world it leaves, are those of the GUI's. *)
Theorem fetch_news_agree (E : Env) (api_key : option pystr) (query : pystr)
        (num_articles : Z) (w w' : World) (articles : list json) :
  App2.key_missing api_key = false ->
  Main2.fetch_news E api_key query num_articles w = (Ok articles, w') ->
  App2.fetch_news E api_key query num_articles w = (Ok articles, w').
Proof.
  intros Hk. unfold Main2.fetch_news, App2.fetch_news.
  rewrite Hk, orb_false_r, (proj1 (sanitize_input_spec query)).
  destruct (negb _); [auto|].
  unfold try_except.
  destruct (request_articles E _ w) as [[l|e] w1]; [auto|].
  destruct (is_Timeout e); [auto|].
  destruct (is_RequestException e); [auto|discriminate].
Qed.

Lemma fetch_news_agree_witness :
  let w := Sample.world (Sample.disk_with []) [] in
  App2.fetch_news Sample.env_ok (Some (lit "n")) (lit "solar") 5 w
  = (Ok [Sample.article "Wind" "https://news.example/1";
         Sample.article "Sun" "https://news.example/2"],
     after_event w (EvHttpGet (news_request (Some (lit "n")) (lit "solar") 5))).
Proof.
  intros w.
  apply (fetch_news_agree Sample.env_ok (Some (lit "n")) (lit "solar") 5 w);
    reflexivity.
Defined.

(** X20.  When the service answers with a success status, the status
    field [ok] and a list of articles, [fetch_news] returns that list as it
    is: nothing is dropped, and it is not cut to [num_articles]. *)
Theorem fetch_news_returns_articles (E : Env) (api_key : option pystr)
        (query : pystr) (num_articles : Z) (w : World) (resp : Response)
        (kv : list (pystr * json)) (articles : list json) :
  blank query = false ->
  http_get E (news_request api_key (slice_to 500 (strip query)) num_articles)
  = Responded resp ->
  (400 <=? status_code resp) && (status_code resp <? 600) = false ->
  body_json resp = Some (JObj kv) ->
  dict_get kv (lit "status") JNull = JStr (lit "ok") ->
  dict_get kv (lit "articles") (JArr []) = JArr articles ->
  fst (Main2.fetch_news E api_key query num_articles w) = Ok articles.
Proof.
  intros Hq Hget Hst Hb Hs Ha.
  unfold Main2.fetch_news, request_articles, requests_get, raise_for_status,
    response_json, py_get.
  apply strip_truthy_iff in Hq. rewrite Hq.
  rewrite (proj1 (sanitize_input_spec query)). run.
  rewrite Hget. simpl. rewrite Hst. simpl. rewrite Hb. simpl.
  rewrite Hs. simpl. rewrite Ha. reflexivity.
Qed.

Lemma fetch_news_returns_articles_witness :
  fst (Main2.fetch_news Sample.env_ok (Some (lit "n")) (lit "solar") 1
                        (Sample.world (Sample.disk_with []) []))
  = Ok [Sample.article "Wind" "https://news.example/1";
        Sample.article "Sun" "https://news.example/2"].
Proof.
  apply (fetch_news_returns_articles Sample.env_ok (Some (lit "n"))
           (lit "solar") 1 (Sample.world (Sample.disk_with []) [])
           {| status_code := 200; text := [];
              body_json := Some Sample.two_articles |}
           [(lit "status", JStr (lit "ok"));
            (lit "articles",
             JArr [Sample.article "Wind" "https://news.example/1";
                   Sample.article "Sun" "https://news.example/2"])]);
    reflexivity.
Defined.

Lemma filter_andb_length {A} (f g : A -> bool) (l : list A) :
  (List.length (filter (fun a => f a && g a) l) <= List.length (filter f l))%nat.
Proof.
  induction l as [|a l IH]; simpl; [lia|].
  destruct (f a), (g a); simpl; lia.
Qed.

Lemma collect_news_cons_dict (E : Env) (kv : list (pystr * json))
      (rest : list json) (news_content : list pystr) (news_links : list json) :
  collect_news E (JObj kv :: rest) news_content news_links
  = if has_text (JObj kv)
    then collect_news E rest
           (news_content ++ [news_line E (JObj kv)])
           (if truthy (article_get (JObj kv) (lit "url"))
            then news_links ++ [article_get (JObj kv) (lit "url")]
            else news_links)
    else collect_news E rest news_content news_links.
Proof. reflexivity. Qed.

(** The loop over the articles, in closed form. *)
Lemma collect_news_dicts (E : Env) (articles : list json)
      (news_content : list pystr) (news_links : list json) :
  Forall is_dict articles ->
  collect_news E articles news_content news_links
  = (Ok (news_content ++ map (news_line E) (filter has_text articles)),
     news_links
     ++ map (fun a => article_get a (lit "url"))
            (filter (fun a => has_text a
                              && truthy (article_get a (lit "url")))
                    articles)).
Proof.
  intros Hd. revert news_content news_links.
  induction Hd as [|a articles [kv ->] _ IH]; intros news_content news_links.
  - simpl. rewrite !app_nil_r. reflexivity.
  - rewrite collect_news_cons_dict. cbn [filter].
    destruct (has_text (JObj kv)); cbn [andb].
    + rewrite IH.
      destruct (truthy (article_get (JObj kv) (lit "url"))); cbn [map];
        rewrite <- !app_assoc; reflexivity.
    + apply IH.
Qed.

(** X11.  From articles that are objects, the pipeline takes one line for
    every article that has a title or a description, in order, and one
    link for every such article that also has a URL, in order: there are
    never more links than lines, nor more lines than articles, and an
    article without title and description gives no link. *)
Theorem collect_news_lines_and_links (E : Env) (articles : list json) :
  Forall is_dict articles ->
  let lines := map (news_line E) (filter has_text articles) in
  let links :=
    map (fun a => article_get a (lit "url"))
        (filter (fun a => has_text a && truthy (article_get a (lit "url")))
                articles) in
  collect_news E articles [] [] = (Ok lines, links)
  /\ (List.length links <= List.length lines <= List.length articles)%nat.
Proof.
  intros Hd lines links. split.
  - apply (collect_news_dicts E articles [] [] Hd).
  - unfold lines, links. rewrite !length_map. split.
    + apply filter_andb_length.
    + apply filter_length_le.
Qed.

Lemma collect_news_lines_and_links_witness :
  let untitled := JObj [(lit "url", JStr (lit "https://news.example/0"))] in
  let unlinked := JObj [(lit "title", JStr (lit "Rain"))] in
  let wind := Sample.article "Wind" "https://news.example/1" in
  collect_news Sample.env_ok [untitled; unlinked; wind] [] []
  = (Ok [news_line Sample.env_ok unlinked; news_line Sample.env_ok wind],
     [JStr (lit "https://news.example/1")])
  /\ (1 <= 2 <= 3)%nat.
Proof.
  intros untitled unlinked wind.
  apply (collect_news_lines_and_links Sample.env_ok [untitled; unlinked; wind]).
  repeat constructor; eexists; reflexivity.
Defined.

(** ** The console input *)

Lemma input_loop_rest (accept : pystr -> result bool)
      (lines rest : list pystr) (r : result pystr) :
  Main2.input_loop accept lines = (r, rest) -> exists used, lines = used ++ rest.
Proof.
  revert rest r. induction lines as [|l lines IH]; intros rest r; simpl.
  - intros H. inversion H. exists []. reflexivity.
  - destruct (accept (strip l)) as [[|]|e]; intros H.
    + inversion H. exists [l]. reflexivity.
    + destruct (IH _ _ H) as [used ->]. exists (l :: used). reflexivity.
    + inversion H. exists [l]. reflexivity.
Qed.

Lemma input_until_world (accept : pystr -> result bool) (w w' : World)
      (v : pystr) :
  Main2.input_until accept w = (Ok v, w') ->
  disk w' = disk w /\ trace w' = trace w
  /\ (exists used, stdin w = used ++ stdin w')
  /\ accept v = Ok true /\ strip v = v.
Proof.
  unfold Main2.input_until.
  destruct (Main2.input_loop accept (stdin w)) as [r rest] eqn:Hl.
  intros H. inversion H; subst.
  destruct (input_loop_accepts _ _ _ _ Hl) as (Ha & l & ->).
  repeat split; simpl; auto.
  - exact (input_loop_rest _ _ _ _ Hl).
  - apply strip_idem.
Qed.

(** [is_valid_url] does not depend on the state it runs in. *)
Lemma is_valid_url_any_state (E : Env) (S T : Type) (url : pystr)
      (s : S) (t : T) :
  is_valid_url E url s = (fst (is_valid_url E url t), s).
Proof.
  unfold is_valid_url. run.
  destruct (urlparse E (strip url)); reflexivity.
Qed.

(** X12.  The contact [get_user_input] returns: every field is stripped,
    the name and the company are not empty, the LinkedIn address and the
    website are each empty or a URL [is_valid_url] accepts; reading it
    consumes console lines only, in order. *)
Theorem get_user_input_returns (E : Env) (w w' : World)
        (contact_info : ContactInfo) :
  Main2.get_user_input E w = (Ok contact_info, w') ->
  (forall v, In v [ci_name contact_info; ci_role contact_info;
                   ci_linkedin contact_info; ci_company contact_info;
                   ci_website contact_info; ci_industry contact_info] ->
             strip v = v)
  /\ ci_name contact_info <> [] /\ ci_company contact_info <> []
  /\ (forall v, In v [ci_linkedin contact_info; ci_website contact_info] ->
                v = [] \/ is_valid_url E v w' = (Ok true, w'))
  /\ disk w' = disk w /\ trace w' = trace w
  /\ exists used, stdin w = used ++ stdin w'.
Proof.
  unfold Main2.get_user_input. intros H.
  apply bind_inv in H as (name & w1 & H1 & H).
  apply bind_inv in H as (company & w2 & H2 & H).
  apply bind_inv in H as (role & w3 & H3 & H).
  apply bind_inv in H as (linkedin & w4 & H4 & H).
  apply bind_inv in H as (website & w5 & H5 & H).
  apply bind_inv in H as (industry & w6 & H6 & H).
  inversion H; subst; clear H. simpl.
  apply input_until_world in H1 as (D1 & T1 & [u1 U1] & A1 & S1).
  apply input_until_world in H2 as (D2 & T2 & [u2 U2] & A2 & S2).
  apply input_until_world in H3 as (D3 & T3 & [u3 U3] & _ & S3).
  apply input_until_world in H4 as (D4 & T4 & [u4 U4] & A4 & S4).
  apply input_until_world in H5 as (D5 & T5 & [u5 U5] & A5 & S5).
  apply input_until_world in H6 as (D6 & T6 & [u6 U6] & _ & S6).
  assert (V : forall v, Main2.blank_or_valid_url E v = Ok true ->
                        v = [] \/ is_valid_url E v w' = (Ok true, w')).
  { intros v Hv. unfold Main2.blank_or_valid_url in Hv.
    destruct v as [|c v]; [left; reflexivity|]. right. simpl in Hv.
    rewrite (is_valid_url_any_state E World unit (c :: v) w' tt), Hv.
    reflexivity. }
  split; [|split; [|split; [|split; [|split; [|split]]]]].
  - intros v [<-|[<-|[<-|[<-|[<-|[<-|[]]]]]]]; assumption.
  - apply str_truthy_true. congruence.
  - apply str_truthy_true. congruence.
  - intros v [<-|[<-|[]]]; apply V; assumption.
  - congruence.
  - congruence.
  - exists (u1 ++ u2 ++ u3 ++ u4 ++ u5 ++ u6).
    rewrite U1, U2, U3, U4, U5, U6, <- !app_assoc. reflexivity.
Qed.

Lemma get_user_input_returns_witness :
  let w := Sample.world (Sample.disk_with []) Sample.jane_typed in
  strip (lit "https://acme.example/about") = lit "https://acme.example/about"
  /\ (lit "https://acme.example/about" = []
      \/ is_valid_url Sample.env_ok (lit "https://acme.example/about")
                      (snd (Main2.get_user_input Sample.env_ok w))
         = (Ok true, snd (Main2.get_user_input Sample.env_ok w))).
Proof.
  intros w.
  destruct (get_user_input_returns Sample.env_ok w
              (snd (Main2.get_user_input Sample.env_ok w)) Sample.jane)
    as (Hs & _ & _ & Hv & _).
  - reflexivity.
  - split.
    + apply (Hs (ci_website Sample.jane)). simpl. tauto.
    + apply (Hv (ci_website Sample.jane)). simpl. tauto.
Defined.




(** ** The pipeline, further *)









(** X15.  A contact with neither website nor industry is saved without
    any request and without invoking the model: when the store can be
    read and the list with the new record holds no surrogate, the one
    event is the write of the store, and the summary of the record is the
    no-content sentinel. *)
Theorem research_and_save_without_sources (E : Env)
        (contact_info : ContactInfo) (w : World) :
  ci_website contact_info = [] -> ci_industry contact_info = [] ->
  blank (ci_name contact_info) = false ->
  blank (ci_company contact_info) = false ->
  load_failure w = None ->
  json_encodable
    (JArr (stored_contacts w
           ++ [Main2.new_entry E
                 (ci_name contact_info) (ci_role contact_info)
                 (ci_linkedin contact_info) (ci_company contact_info)
                 [] [] Main2.no_content_sentinel (Some [])])) = true ->
  exists w',
    Main2.research_and_save E contact_info w = (Ok tt, w')
    /\ trace w'
       = trace w
         ++ [EvSave (JArr
               (stored_contacts w
                ++ [Main2.new_entry E
                      (ci_name contact_info) (ci_role contact_info)
                      (ci_linkedin contact_info) (ci_company contact_info)
                      [] [] Main2.no_content_sentinel (Some [])]))].
Proof.
  intros Hw Hi Hn Hc Hl He.
  unfold Main2.research_and_save, Main2.scrape_step, Main2.news_step.
  rewrite Hw, Hi. simpl str_truthy. cbv iota.
  unfold bind at 1. unfold ret at 1.
  unfold bind at 1. unfold ret at 1.
  unfold bind at 1. unfold Main2.generate_summary.
  change (negb (str_truthy (strip []))) with true. cbv iota.
  unfold ret at 1. unfold bind.
  rewrite save_to_memory_run, Hn, Hc, Hl, save_memory_run, He. simpl.
  destruct (writable (disk w)); eexists; split; reflexivity.
Qed.

Lemma research_and_save_without_sources_witness :
  let bare :=
    {| ci_name := lit "Jane Doe"; ci_role := []; ci_linkedin := [];
       ci_company := lit "Acme"; ci_website := []; ci_industry := [] |} in
  let w := Sample.world (Sample.disk_with [Sample.alice]) [] in
  exists w',
    Main2.research_and_save Sample.env_ok bare w = (Ok tt, w')
    /\ trace w'
       = [] ++ [EvSave (JArr
               ([Sample.alice]
                ++ [Main2.new_entry Sample.env_ok (lit "Jane Doe") [] []
                      (lit "Acme") [] [] Main2.no_content_sentinel
                      (Some [])]))].
Proof.
  intros bare w.
  apply (research_and_save_without_sources Sample.env_ok bare w);
    reflexivity.
Defined.

(** ** Deleting a contact (console) *)

Lemma list_contacts_world (memory : list json) (w w' : World)
      (r : result unit) :
  Main2Menu.list_contacts memory w = (r, w') -> w' = w.
Proof.
  revert w w' r. induction memory as [|c memory IH]; intros w w' r; simpl.
  - intros H. inversion H. reflexivity.
  - destruct c; simpl; try (intros H; inversion H; reflexivity).
    exact (IH w w' r).
Qed.

Lemma list_contacts_dicts (memory : list json) (w : World) :
  Forall is_dict memory -> Main2Menu.list_contacts memory w = (Ok tt, w).
Proof.
  induction 1 as [|c memory [kv ->] _ IH]; simpl; [reflexivity|exact IH].
Qed.

Lemma nth_middle_dict (pre post : list json) (c : json) :
  nth (List.length pre) (pre ++ c :: post) JNull = c.
Proof. rewrite app_nth2, Nat.sub_diag by lia. reflexivity. Qed.

(** A store that holds a record can be read. *)
Lemma stored_contacts_loads (w : World) :
  stored_contacts w <> [] -> load_failure w = None.
Proof.
  unfold stored_contacts, load_failure.
  destruct (file (disk w)) as [[|e|j]|]; congruence.
Qed.

(** X5.  [delete_contact] removes the contact whose number the user
    enters: with the records listed from 1, the answer [k] that [int]
    reads as the position of a record deletes that record and no other,
    keeps the order of the rest, writes the list to the store file and
    consumes the one line.  The records that stay hold no surrogate. *)
Theorem delete_contact_removes_chosen (py_int : pystr -> option Z)
        (w : World) (pre post : list json) (c : json)
        (line : pystr) (rest : list pystr) :
  stored_contacts w = pre ++ c :: post ->
  Forall is_dict (pre ++ c :: post) ->
  stdin w = line :: rest ->
  Main2Menu.is_quit (strip line) = false ->
  py_int (strip line) = Some (Z.of_nat (S (List.length pre))) ->
  writable (disk w) = true ->
  json_encodable (JArr (pre ++ post)) = true ->
  exists w',
    Main2Menu.delete_contact py_int w = (Ok tt, w')
    /\ file (disk w') = Some (Json (JArr (pre ++ post)))
    /\ stdin w' = rest
    /\ trace w' = trace w ++ [EvSave (JArr (pre ++ post))].
Proof.
  intros Hst Hd Hin Hq Hint Hw He.
  assert (Hl : load_failure w = None).
  { apply stored_contacts_loads. rewrite Hst. destruct pre; discriminate. }
  unfold Main2Menu.delete_contact.
  rewrite (bind_ok _ _ _ _ _ (load_memory_ok w Hl)), Hst.
  destruct (pre ++ c :: post) as [|m0 ms] eqn:Hm;
    [destruct pre; discriminate Hm|].
  rewrite <- Hm in *. clear Hm m0 ms.
  rewrite (bind_ok _ _ _ _ _ (list_contacts_dicts _ w Hd)).
  unfold try_except, bind at 1, Main2.input_until.
  rewrite Hin. cbn [Main2.input_loop]. cbv iota beta.
  rewrite Hq. unfold bind at 1, call. rewrite Hint.
  assert (Hrange : ((1 <=? Z.of_nat (S (List.length pre)))
                    && (Z.of_nat (S (List.length pre))
                        <=? Z.of_nat (List.length (pre ++ c :: post))))%Z
                   = true).
  { apply andb_true_iff. split; apply Z.leb_le; [lia|].
    rewrite length_app. simpl. lia. }
  rewrite Hrange.
  replace (Z.to_nat (Z.of_nat (S (List.length pre)) - 1))
    with (List.length pre) by lia.
  rewrite pop_middle, nth_middle_dict.
  unfold bind at 1. rewrite save_memory_run, He. cbn [disk writable].
  rewrite Hw.
  apply Forall_app in Hd as [_ Hd]. inversion Hd as [|? ? [kv ->] _].
  eexists. split; [reflexivity|]. simpl. auto.
Qed.

Lemma delete_contact_removes_chosen_witness :
  let w := Sample.world (Sample.disk_with [Sample.alice; Sample.bob;
                                            Sample.alice])
                        [lit " 2 "; lit "y"] in
  exists w',
    Main2Menu.delete_contact
      (fun s => if str_eqb s (lit "2") then Some 2%Z else None) w
    = (Ok tt, w')
    /\ file (disk w') = Some (Json (JArr ([Sample.alice] ++ [Sample.alice])))
    /\ stdin w' = [lit "y"]
    /\ trace w' = [] ++ [EvSave (JArr ([Sample.alice] ++ [Sample.alice]))].
Proof.
  intros w.
  apply (delete_contact_removes_chosen
           (fun s => if str_eqb s (lit "2") then Some 2%Z else None)
           w [Sample.alice] [Sample.alice] Sample.bob (lit " 2 ") [lit "y"]);
    try reflexivity.
  repeat constructor; eexists; reflexivity.
Defined.

(** When a record that stays holds a surrogate (read from the escape
    [\ud800] in the file), the write fails with [UnicodeEncodeError],
    which the [except ValueError] of [delete_contact] takes for a wrong
    number: the function returns, and the store file is left
    unparseable. *)
Example delete_contact_loses_store :
  let odd := JObj [(lit "name", JStr (lit "Bob"));
                   (lit "company", JStr (lit "Acme"));
                   (lit "summary", JStr [55296])] in
  let w := Sample.world (Sample.disk_with [Sample.alice; odd]) [lit "1"] in
  let '(r, w') := Main2Menu.delete_contact Sample.digits w in
  r = Ok tt /\ file (disk w') = Some Garbage /\ stored_contacts w' = [].
Proof. vm_compute. auto. Qed.

(** X6.  On a store that can be read, [delete_contact] deletes nothing,
    and does not touch the store file, when the store is empty (no line
    is read then), when the user answers [q] or [Q], when the answer is no
    number, and when the number is not the position of a record. *)
Theorem delete_contact_keeps_store (py_int : pystr -> option Z)
        (w : World) (line : pystr) (rest : list pystr) :
  load_failure w = None ->
  Forall is_dict (stored_contacts w) ->
  (stored_contacts w = [] ->
   Main2Menu.delete_contact py_int w = (Ok tt, w))
  /\ (stored_contacts w <> [] ->
      stdin w = line :: rest ->
      Main2Menu.is_quit (strip line) = true
      \/ py_int (strip line) = None
      \/ (exists n, py_int (strip line) = Some n
                    /\ (n < 1 \/ Z.of_nat (List.length (stored_contacts w)) < n)%Z) ->
      Main2Menu.delete_contact py_int w
      = (Ok tt, {| disk := disk w; stdin := rest; trace := trace w |})).
Proof.
  intros Hl Hd. unfold Main2Menu.delete_contact.
  rewrite (bind_ok _ _ _ _ _ (load_memory_ok w Hl)).
  split.
  - intros ->. reflexivity.
  - intros Hne Hin Hcase.
    destruct (stored_contacts w) as [|m0 ms] eqn:Hm; [congruence|].
    rewrite (bind_ok _ _ _ _ _ (list_contacts_dicts _ w Hd)).
    unfold try_except, bind at 1, Main2.input_until.
    rewrite Hin. cbn [Main2.input_loop]. cbv iota beta.
    destruct (Main2Menu.is_quit (strip line)) eqn:Hq; [reflexivity|].
    destruct Hcase as [Hcase|[Hnone|(n & Hn & Hrange)]]; [discriminate| |].
    + unfold bind at 1, call. rewrite Hnone. reflexivity.
    + unfold bind at 1, call. rewrite Hn.
      assert (Hout : ((1 <=? n)
                      && (n <=? Z.of_nat (List.length (m0 :: ms))))%Z = false).
      { apply andb_false_iff.
        destruct Hrange; [left|right]; apply Z.leb_gt; assumption. }
      rewrite Hout. reflexivity.
Qed.

Lemma delete_contact_keeps_store_witness :
  let w := Sample.world (Sample.disk_with [Sample.alice; Sample.bob])
                        [lit "3"; lit "y"] in
  Main2Menu.delete_contact
    (fun s => if str_eqb s (lit "3") then Some 3%Z else None) w
  = (Ok tt, {| disk := disk w; stdin := [lit "y"]; trace := trace w |}).
Proof.
  intros w.
  destruct (delete_contact_keeps_store
              (fun s => if str_eqb s (lit "3") then Some 3%Z else None)
              w (lit "3") [lit "y"]) as [_ H].
  - reflexivity.
  - repeat constructor; eexists; reflexivity.
  - apply H.
    + discriminate.
    + reflexivity.
    + right. right. exists 3%Z. split; [reflexivity|]. right.
      vm_compute. reflexivity.
Defined.

(** On a store file whose bytes are not UTF-8, [delete_contact] shows
    no list: the [UnicodeDecodeError] of [load_memory] leaves it. *)
Example delete_contact_undecodable_store :
  let w := Sample.world Sample.undecodable [lit "1"] in
  Main2Menu.delete_contact Sample.digits w
  = (Raise (UnicodeDecodeError (lit "'utf-8' codec can't decode byte 0xff")),
     w).
Proof. reflexivity. Qed.

(** ** The GUI store operations, further *)

(** [delete_selected_contact] changes nothing without a selected
    row and a confirmed question: the contact list and the world stay as
    they are, and the one thing that happens is the message box. *)
Lemma delete_selected_contact_needs_confirmation
        (E : Env) (py_int : pystr -> option Z)
        (selection : option (pystr * pystr)) (confirmed : bool)
        (g : App2.Gui) :
  selection = None \/ confirmed = false ->
  exists g' box,
    App2.delete_selected_contact E py_int selection confirmed g
    = (Ok JNull, g')
    /\ App2.current_contacts g' = App2.current_contacts g
    /\ App2.world g' = App2.world g
    /\ App2.dialogs g' = App2.dialogs g ++ [box].
Proof.
  intros H. unfold App2.delete_selected_contact.
  destruct selection as [[contact_name company_name]|].
  - destruct H as [H|H]; [discriminate H|]. subst confirmed.
    eexists; eexists; repeat split.
  - eexists; eexists; repeat split.
Qed.

Lemma delete_selected_contact_needs_confirmation_witness :
  exists g' box,
    App2.delete_selected_contact Sample.env_ok Sample.digits
      (Some (lit "Alice", lit "Acme")) false
      (Sample.gui [Sample.alice] (Sample.disk_with [Sample.alice]))
    = (Ok JNull, g')
    /\ App2.current_contacts g' = [Sample.alice]
    /\ App2.world g' = Sample.world (Sample.disk_with [Sample.alice]) []
    /\ App2.dialogs g' = [] ++ [box].
Proof.
  apply (delete_selected_contact_needs_confirmation
           Sample.env_ok Sample.digits
           (Some (lit "Alice", lit "Acme")) false
           (Sample.gui [Sample.alice] (Sample.disk_with [Sample.alice]))).
  right. reflexivity.
Defined.





(** ** The HTML tree *)

Lemma node_forall_ind (P : node -> Prop) :
  (forall s, P (Text s)) ->
  (forall t ch, Forall P ch -> P (Elem t ch)) ->
  forall n, P n.
Proof.
  intros HT HE. fix IH 1. intros [s|t ch].
  - apply HT.
  - apply HE. induction ch as [|c ch IHch]; constructor.
    + apply IH.
    + exact IHch.
Qed.

Lemma flat_map_nil {A B} (f : A -> list B) (l : list A) :
  Forall (fun a => f a = []) l -> flat_map f l = [].
Proof.
  induction 1 as [|a l Ha _ IH]; simpl; [reflexivity|].
  rewrite Ha, IH. reflexivity.
Qed.

Lemma flat_map_flat_map {A B C} (f : B -> list C) (g : A -> list B)
      (l : list A) :
  flat_map f (flat_map g l) = flat_map (fun a => flat_map f (g a)) l.
Proof.
  induction l as [|a l IH]; simpl; [reflexivity|].
  rewrite flat_map_app, IH. reflexivity.
Qed.

(** X19.  After the [decompose] loop no element with one of the removed
    tags is left, at any depth: [find_all] for those tags finds nothing,
    so no script or style element reaches the extraction. *)
Theorem no_removed_tag_is_found (tags : list pystr) (soup : list node) :
  flat_map (find_all tags) (flat_map (decompose tags) soup) = [].
Proof.
  rewrite flat_map_flat_map. apply flat_map_nil.
  apply Forall_forall. intros n _. revert n.
  apply node_forall_ind.
  - reflexivity.
  - intros t ch IH. simpl.
    destruct (tag_in t tags) eqn:Ht; [reflexivity|].
    simpl. rewrite Ht, app_nil_r. simpl.
    rewrite flat_map_flat_map. apply flat_map_nil. exact IH.
Qed.

Example no_removed_tag_is_found_example :
  flat_map (find_all [lit "script"; lit "style"]) Sample.page
  = [Elem (lit "script") [Text (lit "alert(1)")]]
  /\ flat_map (find_all [lit "script"; lit "style"])
              (flat_map (decompose [lit "script"; lit "style"]) Sample.page)
     = [].
Proof. split; vm_compute; reflexivity. Qed.

(** ** Brief generation, further *)

Lemma contains_here (part rest : pystr) : contains part (part ++ rest).
Proof. exists [], rest. reflexivity. Qed.

Lemma contains_skip (part a s : pystr) :
  contains part s -> contains part (a ++ s).
Proof.
  intros (b & c & ->). exists (a ++ b), c. rewrite <- app_assoc. reflexivity.
Qed.

Ltac find_part :=
  first [ apply contains_here | apply contains_skip; find_part ].

(** X21.  With content that is not blank, the console's
    [generate_summary] invokes the model exactly once, on a prompt that
    contains the whole content, the name and the company; it returns the
    model's text as it is, or, when the model raises, the failure text. *)
Theorem generate_summary_invokes_model_once (E : Env) (content : pystr)
        (contact_info : ContactInfo) (w : World) :
  blank content = false ->
  let prompt := build_prompt (lit "    ") contact_info content in
  Main2.generate_summary E content contact_info w
  = (Ok (match generate_content E prompt with
         | Ok text => text
         | Raise _ => Main2.fallback_summary contact_info
         end),
     after_event w (EvGenerate prompt))
  /\ contains content prompt
  /\ contains (ci_name contact_info) prompt
  /\ contains (ci_company contact_info) prompt.
Proof.
  intros Hb prompt. split.
  - unfold Main2.generate_summary, model_generate.
    apply strip_truthy_iff in Hb. rewrite Hb. run. fold prompt.
    destruct (generate_content E prompt); reflexivity.
  - unfold prompt, build_prompt. repeat split; find_part.
Qed.

Lemma generate_summary_invokes_model_once_witness :
  let w := Sample.world (Sample.disk_with []) [] in
  let prompt := build_prompt (lit "    ") Sample.jane (lit "Some content") in
  Main2.generate_summary Sample.env_ok (lit "Some content") Sample.jane w
  = (Ok (lit "A brief."), after_event w (EvGenerate prompt))
  /\ contains (lit "Some content") prompt
  /\ contains (lit "Jane Doe") prompt
  /\ contains (lit "Acme") prompt.
Proof.
  intros w prompt.
  apply (generate_summary_invokes_model_once Sample.env_ok
           (lit "Some content") Sample.jane w).
  reflexivity.
Defined.

(** ** Console and GUI on one store *)

(** X22.  A record the console's [save_to_memory] appended is the one the
    GUI's [delete_selected_contact] removes when the row selected shows
    its stored (sanitized) name and company, neither of which reads as an
    integer, and no earlier record has both: the contact list is then the
    list from before the append. *)
Theorem delete_undoes_append (E : Env) (py_int : pystr -> option Z)
        (name role linkedin company website industry summary : pystr)
        (news_links : option (list json)) (w w1 : World) (g : App2.Gui) :
  Main2.save_to_memory E name role linkedin company website industry
                       summary news_links w = (Ok true, w1) ->
  readable (disk w) = true ->
  App2.current_contacts g = stored_contacts w1 ->
  Forall is_dict (stored_contacts w) ->
  (forall x, In x (stored_contacts w) ->
             ~ is_contact (Main2.sanitize_input name)
                          (Main2.sanitize_input company) x) ->
  py_int (Main2.sanitize_input name) = None ->
  py_int (Main2.sanitize_input company) = None ->
  exists g',
    App2.delete_selected_contact E py_int
      (Some (Main2.sanitize_input name, Main2.sanitize_input company)) true g
    = (Ok JNull, g')
    /\ App2.current_contacts g' = stored_contacts w.
Proof.
  intros Hs Hr Hg Hd Hno Hn Hcn.
  apply save_to_memory_true in Hs as (_ & _ & _ & Hr1 & Hf).
  assert (Hst : App2.current_contacts g
                = stored_contacts w
                  ++ Main2.new_entry E name role linkedin company website
                                     industry summary news_links :: []).
  { rewrite Hg. unfold stored_contacts at 1. rewrite Hf, Hr1, Hr. reflexivity. }
  assert (Hyes : is_contact (Main2.sanitize_input name)
                            (Main2.sanitize_input company)
                            (Main2.new_entry E name role linkedin company
                                             website industry summary
                                             news_links)).
  { eexists. split; [reflexivity|]. split; reflexivity. }
  pose proof (find_contact_first _ [] _ _ _ 0%nat Hd Hno Hyes) as Hfind.
  rewrite <- Hst in Hfind.
  assert (Hname : App2.convert_stringval py_int (Main2.sanitize_input name)
                  = App2.TkStr (Main2.sanitize_input name)).
  { unfold App2.convert_stringval. rewrite Hn. reflexivity. }
  assert (Hcompany :
            App2.convert_stringval py_int (Main2.sanitize_input company)
            = App2.TkStr (Main2.sanitize_input company)).
  { unfold App2.convert_stringval. rewrite Hcn. reflexivity. }
  rewrite <- Hname, <- Hcompany in Hfind.
  destruct (delete_selected_contact_run E _ _ _ _ _ Hfind)
    as (g' & Hrun & Hc & _).
  exists g'. split; [exact Hrun|].
  rewrite Hc, Hst. simpl. rewrite pop_middle, app_nil_r. reflexivity.
Qed.

Lemma delete_undoes_append_witness :
  let w := Sample.world (Sample.disk_with [Sample.alice]) [] in
  let w1 := snd (Main2.save_to_memory Sample.env_ok (lit " Bob ") [] []
                   (lit "Acme") [] [] (lit "A brief.") None w) in
  exists g',
    App2.delete_selected_contact Sample.env_ok Sample.digits
      (Some (lit "Bob", lit "Acme")) true
      (Sample.gui (stored_contacts w1) (disk w1))
    = (Ok JNull, g')
    /\ App2.current_contacts g' = [Sample.alice].
Proof.
  intros w w1.
  apply (delete_undoes_append Sample.env_ok Sample.digits
           (lit " Bob ") [] [] (lit "Acme")
           [] [] (lit "A brief.") None w w1
           (Sample.gui (stored_contacts w1) (disk w1))).
  - reflexivity.
  - reflexivity.
  - reflexivity.
  - repeat constructor. eexists; reflexivity.
  - intros x [<-|[]] (kv & Hkv & Hn & _).
    inversion Hkv; subst kv. discriminate Hn.
  - reflexivity.
  - reflexivity.
Defined.
